(** * Tiled preferences: a shallow embedding of src/tiled/preferences.cpp

    The class [Preferences] is a [QSettings] subclass.  The persistent store
    is modelled as a finite map from hierarchical string keys to [QVariant]
    values, the way [QSettings] holds it in memory between a [setValue] and a
    [value].  The objects the class talks to (session, file watcher, timer,
    plugin manager, the global object-type list, emitted signals) are fields
    of one explicit [State] that every member function passes along. *)

From Stdlib Require Import QArith Ascii String.
From Equations Require Import Equations.
From stdpp Require Import gmap strings list fin_maps sorting.

Local Open Scope string_scope.
Local Open Scope list_scope.
Local Open Scope Z_scope.

(** ** Qt value types *)

(** [QDate]: a Julian day number, or the null (invalid) date. *)
Definition QDate := option Z.

(** [QDateTime]: milliseconds since the epoch, or the null date-time. *)
Definition QDateTime := option Z.

(** [QColor]: an RGBA colour, or the invalid colour. *)
Inductive QColor :=
| InvalidColor
| Rgba (r g b a : Z).

Definition Qt_black : QColor := Rgba 0 0 0 255.
Definition Qt_lightGray : QColor := Rgba 192 192 192 255.

(** [qreal] is a double; every finite double is a rational. *)
Definition qreal := Q.

#[local] Set Warnings "-register-all".

(** [QVariant], restricted to the payload types this file stores or reads.
    [QVariantMap] is a [QMap<QString, QVariant>], kept as a key-ordered
    association list. *)
Inductive QVariant :=
| VInvalid
| VBool (b : bool)
| VInt (n : Z)
| VDouble (q : qreal)
| VString (s : string)
| VStringList (l : list string)
| VDate (d : QDate)
| VColor (c : QColor)
| VMap (m : list (string * QVariant)).

Abbreviation QVariantMap := (list (string * QVariant)).

(** ** Types of the collaborating classes *)

(** [ObjectType(name, color)] and [ObjectTypes = QVector<ObjectType>]. *)
Record ObjectType := { ot_name : string; ot_color : QColor }.
Abbreviation ObjectTypes := (list ObjectType).

(** [enum PluginState] of pluginmanager.h. *)
Inductive PluginState := PluginDefault | PluginEnabled | PluginDisabled | PluginStatic.

#[export] Instance PluginState_eq_dec : EqDecision PluginState.
Proof. solve_decision. Defined.

(** Modelled from the spec: the class [Session] (session.h) is not part of
    the sources at hand.  It is "an external, richer persisted structure
    (recent files, open files, per-file view state, active file)"; the fields
    are named as preferences.cpp uses them. *)
Record Session := {
  fileName : string;
  recentFiles : list string;
  openFiles : list string;
  activeFile : string;
  fileStates : gmap string QVariantMap;
}.

(** [enum ExportOption] of preferences.h. *)
Inductive ExportOption :=
| EmbedTilesets | DetachTemplateInstances
| ResolveObjectTypesAndProperties | ExportMinimized.

(** [enum FileType] of preferences.h. *)
Inductive FileType :=
| ExportedFile | ExternalTileset | ImageFile | ObjectTemplateFile
| ObjectTypesFile | ProjectFile | WorldFile.

(** ** What the platform supplies

    Qt library functions that parse or print text, values that depend on the
    machine (paths, today's date, the file system), collaborators that live in
    other translation units, and constants declared in headers. *)
Class Platform := {
  (* QString::toInt, QString::toDouble, QString::number, qRound *)
  QString_toInt : string → Z;
  QString_toDouble : string → qreal;
  QString_number : Z → string;
  QString_numberF : qreal → string;
  qRound : qreal → Z;
  (* QDate::fromString(s, Qt::ISODate), QDate::toString(Qt::ISODate) *)
  QDate_fromString : string → QDate;
  QDate_toString : QDate → string;
  (* QColor(const QString &), QColor::name() *)
  QColor_fromName : string → QColor;
  QColor_name : QColor → string;
  (* QDate::currentDate(), as a Julian day: always a valid date *)
  currentDate : Z;
  (* QStandardPaths::writableLocation of AppDataLocation, DocumentsLocation *)
  dataLocation : string;
  documentsLocation : string;
  (* QFileInfo(document->fileName()).path() of the current document, if any *)
  currentDocumentPath : option string;
  (* QDir::cleanPath(QFileInfo(fileName).absoluteFilePath()) *)
  absoluteCleanPath : string → string;
  (* QFileInfo(path).lastModified() *)
  lastModified : string → QDateTime;
  (* ObjectTypesSerializer::readObjectTypes(fileName, objectTypes): the
     result and what the call leaves in the out-parameter *)
  readObjectTypes : string → ObjectTypes → bool * ObjectTypes;
  (* PluginManager::setPluginState, as its effect on pluginStates() *)
  PluginManager_setPluginState :
    string → PluginState → gmap string PluginState → gmap string PluginState;
  (* Session::save(), Session::defaultFileName() *)
  Session_save : Session → bool;
  Session_defaultFileName : string;
  (* toSettingsValue(v.toPointF()) *)
  toSettingsValue_toPointF : QVariant → QVariant;
  (* enum { MaxRecentFiles = ... } of preferences.h *)
  MaxRecentFiles : nat;
  (* Q_OS_MAC, and enumerators of preferences.h and map.h as int values *)
  Q_OS_MAC : bool;
  AllObjectLabels : Z;
  SystemDefaultStyle : Z;
  FusionStyle : Z;
  TiledStyle : Z;
  Map_CSV : Z;
  Map_RightDown : Z;
}.

(** ** QVariant conversions: [QVariant::fromValue] and [QVariant::value<T>] *)

Definition ascii_toLower (c : ascii) : ascii :=
  let n := nat_of_ascii c in
  if (65 <=? n)%nat && (n <=? 90)%nat then ascii_of_nat (n + 32) else c.

Fixpoint QString_toLower (s : string) : string :=
  match s with
  | EmptyString => EmptyString
  | String c s' => String (ascii_toLower c) (QString_toLower s')
  end.

Definition QString_isEmpty (s : string) : bool :=
  match s with EmptyString => true | _ => false end.

Class VariantType (T : Type) := {
  fromValue : T → QVariant;
  value_as : QVariant → T;
}.

Section Conversions.
Context `{Platform}.

(* QVariant::toBool *)
Definition toBool (v : QVariant) : bool :=
  match v with
  | VBool b => b
  | VInt n => negb (n =? 0)%Z
  | VDouble q => negb (Qeq_bool q 0)
  | VString s =>
      let str := QString_toLower s in
      negb (QString_isEmpty str || String.eqb str "0" || String.eqb str "false")
  | _ => false
  end.

(* QVariant::toInt *)
Definition toInt (v : QVariant) : Z :=
  match v with
  | VBool b => if b then 1 else 0
  | VInt n => n
  | VDouble q => qRound q
  | VString s => QString_toInt s
  | _ => 0
  end.

(* QVariant::toDouble *)
Definition toDouble (v : QVariant) : qreal :=
  match v with
  | VBool b => if b then 1%Q else 0%Q
  | VInt n => inject_Z n
  | VDouble q => q
  | VString s => QString_toDouble s
  | _ => 0%Q
  end.

(* QVariant::toString *)
Definition toString (v : QVariant) : string :=
  match v with
  | VBool b => if b then "true" else "false"
  | VInt n => QString_number n
  | VDouble q => QString_numberF q
  | VString s => s
  | VStringList [s] => s
  | VDate d => QDate_toString d
  | VColor c => QColor_name c
  | _ => ""
  end.

(* QVariant::toStringList *)
Definition toStringList (v : QVariant) : list string :=
  match v with
  | VStringList l => l
  | VString s => [s]
  | _ => []
  end.

(* QVariant::toDate *)
Definition toDate (v : QVariant) : QDate :=
  match v with
  | VDate d => d
  | VString s => QDate_fromString s
  | _ => None
  end.

(* QVariant::value<QColor>() *)
Definition toColor (v : QVariant) : QColor :=
  match v with
  | VColor c => c
  | VString s => QColor_fromName s
  | _ => InvalidColor
  end.

(* QVariant::toMap *)
Definition toMap (v : QVariant) : QVariantMap :=
  match v with
  | VMap m => m
  | _ => []
  end.

#[export] Instance bool_variant : VariantType bool :=
  {| fromValue := VBool; value_as := toBool |}.
#[export] Instance int_variant : VariantType Z :=
  {| fromValue := VInt; value_as := toInt |}.
#[export] Instance qreal_variant : VariantType qreal :=
  {| fromValue := VDouble; value_as := toDouble |}.
#[export] Instance QString_variant : VariantType string :=
  {| fromValue := VString; value_as := toString |}.
#[export] Instance QStringList_variant : VariantType (list string) :=
  {| fromValue := VStringList; value_as := toStringList |}.
#[export] Instance QDate_variant : VariantType QDate :=
  {| fromValue := VDate; value_as := toDate |}.
#[export] Instance QColor_variant : VariantType QColor :=
  {| fromValue := VColor; value_as := toColor |}.
#[export] Instance QVariantMap_variant : VariantType QVariantMap :=
  {| fromValue := VMap; value_as := toMap |}.
End Conversions.

(** ** The settings store (the [QSettings] base class) *)

Abbreviation Settings := (gmap string QVariant).

(** [QSettings::value(key, defaultValue)] *)
Definition value (key : string) (defaultValue : QVariant) (s : Settings) : QVariant :=
  default defaultValue (s !! key).

(** [QSettings::setValue(key, value)] *)
Definition setValue (key : string) (v : QVariant) (s : Settings) : Settings :=
  <[key := v]> s.

(** [QSettings::contains(key)]: a setting stored at exactly [key]. *)
Definition contains (key : string) (s : Settings) : bool :=
  bool_decide (is_Some (s !! key)).

(** [k'] is [key] itself or one of its sub-settings [key/...]. *)
Definition is_under (key k' : string) : bool :=
  String.eqb key k' || String.prefix (key +:+ "/") k'.

(** [QSettings::remove(key)]: removes the setting [key] and any
    sub-settings of [key]. *)
Definition remove (key : string) (s : Settings) : Settings :=
  filter (λ kv, is_under key kv.1 = false) s.

(** Modelled from the spec: the member template [Preferences::get<T>] is
    declared in preferences.h, which is not part of the sources at hand.  A
    setting is "a (string key, typed default value) pair", read by a typed
    getter, with "missing keys (resolved via defaults)": the stored value
    converted to [T] when the key is present, the default otherwise.  As in
    [value(key, defaultValue).value<T>()], the default travels through a
    [QVariant]. *)
Definition get {T} `{VariantType T} (key : string) (defaultValue : T)
    (s : Settings) : T :=
  value_as (value key (fromValue defaultValue) s).

(** ** The state the member functions act on *)

(** [QTimer]: [remaining] is the time left (ms) while the timer is active. *)
Record QTimer := {
  interval : nat;
  singleShot : bool;
  remaining : option nat;
}.

Definition QTimer_isActive (t : QTimer) : bool :=
  bool_decide (is_Some (remaining t)).
Definition QTimer_start (t : QTimer) : QTimer :=
  {| interval := interval t; singleShot := singleShot t;
     remaining := Some (interval t) |}.
Definition QTimer_stop (t : QTimer) : QTimer :=
  {| interval := interval t; singleShot := singleShot t; remaining := None |}.

(** The signals of [Preferences] emitted by the functions modelled here. *)
Inductive Signal :=
| showGridChanged (b : bool)
| gridFineChanged (n : Z)
| objectLineWidthChanged (w : qreal)
| isPatronChanged
| objectTypesChanged
| recentProjectsChanged
| aboutToSaveSession.

(** Modelled from the spec: [FileSystemWatcher] (filesystemwatcher.h) is not
    part of the sources at hand; the object-types file is "watched for
    external modification".  The watcher is the set of watched paths. *)
Abbreviation FileSystemWatcher := (gset string).
Definition addPath (p : string) (w : FileSystemWatcher) : FileSystemWatcher :=
  {[p]} ∪ w.
Definition removePath (p : string) (w : FileSystemWatcher) : FileSystemWatcher :=
  w ∖ {[p]}.

(** The [Preferences] object and the process-wide objects it updates. *)
Record State := {
  settings : Settings;
  mSession : Session;
  mWatcher : FileSystemWatcher;
  mObjectTypesFileLastSaved : QDateTime;
  mSaveSessionTimer : QTimer;
  (* Object::objectTypes() *)
  objectTypes : ObjectTypes;
  (* PluginManager::pluginStates() *)
  pluginStates : gmap string PluginState;
  (* SaveFile::safeSavingEnabled() *)
  SaveFile_safeSavingEnabled : bool;
  (* the sessions written by Session::save, latest first *)
  savedSessions : list Session;
  (* the signals emitted, latest first *)
  emitted : list Signal;
}.

Definition with_settings (f : Settings → Settings) (st : State) : State :=
  {| settings := f (settings st); mSession := mSession st;
     mWatcher := mWatcher st;
     mObjectTypesFileLastSaved := mObjectTypesFileLastSaved st;
     mSaveSessionTimer := mSaveSessionTimer st;
     objectTypes := objectTypes st; pluginStates := pluginStates st;
     SaveFile_safeSavingEnabled := SaveFile_safeSavingEnabled st;
     savedSessions := savedSessions st; emitted := emitted st |}.

Definition with_session (f : Session → Session) (st : State) : State :=
  {| settings := settings st; mSession := f (mSession st);
     mWatcher := mWatcher st;
     mObjectTypesFileLastSaved := mObjectTypesFileLastSaved st;
     mSaveSessionTimer := mSaveSessionTimer st;
     objectTypes := objectTypes st; pluginStates := pluginStates st;
     SaveFile_safeSavingEnabled := SaveFile_safeSavingEnabled st;
     savedSessions := savedSessions st; emitted := emitted st |}.

Definition with_watcher (f : FileSystemWatcher → FileSystemWatcher)
    (st : State) : State :=
  {| settings := settings st; mSession := mSession st;
     mWatcher := f (mWatcher st);
     mObjectTypesFileLastSaved := mObjectTypesFileLastSaved st;
     mSaveSessionTimer := mSaveSessionTimer st;
     objectTypes := objectTypes st; pluginStates := pluginStates st;
     SaveFile_safeSavingEnabled := SaveFile_safeSavingEnabled st;
     savedSessions := savedSessions st; emitted := emitted st |}.

Definition with_lastSaved (t : QDateTime) (st : State) : State :=
  {| settings := settings st; mSession := mSession st;
     mWatcher := mWatcher st;
     mObjectTypesFileLastSaved := t;
     mSaveSessionTimer := mSaveSessionTimer st;
     objectTypes := objectTypes st; pluginStates := pluginStates st;
     SaveFile_safeSavingEnabled := SaveFile_safeSavingEnabled st;
     savedSessions := savedSessions st; emitted := emitted st |}.

Definition with_timer (f : QTimer → QTimer) (st : State) : State :=
  {| settings := settings st; mSession := mSession st;
     mWatcher := mWatcher st;
     mObjectTypesFileLastSaved := mObjectTypesFileLastSaved st;
     mSaveSessionTimer := f (mSaveSessionTimer st);
     objectTypes := objectTypes st; pluginStates := pluginStates st;
     SaveFile_safeSavingEnabled := SaveFile_safeSavingEnabled st;
     savedSessions := savedSessions st; emitted := emitted st |}.

Definition with_objectTypes (o : ObjectTypes) (st : State) : State :=
  {| settings := settings st; mSession := mSession st;
     mWatcher := mWatcher st;
     mObjectTypesFileLastSaved := mObjectTypesFileLastSaved st;
     mSaveSessionTimer := mSaveSessionTimer st;
     objectTypes := o; pluginStates := pluginStates st;
     SaveFile_safeSavingEnabled := SaveFile_safeSavingEnabled st;
     savedSessions := savedSessions st; emitted := emitted st |}.

Definition with_pluginStates
    (f : gmap string PluginState → gmap string PluginState) (st : State) : State :=
  {| settings := settings st; mSession := mSession st;
     mWatcher := mWatcher st;
     mObjectTypesFileLastSaved := mObjectTypesFileLastSaved st;
     mSaveSessionTimer := mSaveSessionTimer st;
     objectTypes := objectTypes st; pluginStates := f (pluginStates st);
     SaveFile_safeSavingEnabled := SaveFile_safeSavingEnabled st;
     savedSessions := savedSessions st; emitted := emitted st |}.

Definition with_safeSaving (b : bool) (st : State) : State :=
  {| settings := settings st; mSession := mSession st;
     mWatcher := mWatcher st;
     mObjectTypesFileLastSaved := mObjectTypesFileLastSaved st;
     mSaveSessionTimer := mSaveSessionTimer st;
     objectTypes := objectTypes st; pluginStates := pluginStates st;
     SaveFile_safeSavingEnabled := b;
     savedSessions := savedSessions st; emitted := emitted st |}.

Definition with_saved (sess : Session) (st : State) : State :=
  {| settings := settings st; mSession := mSession st;
     mWatcher := mWatcher st;
     mObjectTypesFileLastSaved := mObjectTypesFileLastSaved st;
     mSaveSessionTimer := mSaveSessionTimer st;
     objectTypes := objectTypes st; pluginStates := pluginStates st;
     SaveFile_safeSavingEnabled := SaveFile_safeSavingEnabled st;
     savedSessions := sess :: savedSessions st; emitted := emitted st |}.

Definition emit (sig : Signal) (st : State) : State :=
  {| settings := settings st; mSession := mSession st;
     mWatcher := mWatcher st;
     mObjectTypesFileLastSaved := mObjectTypesFileLastSaved st;
     mSaveSessionTimer := mSaveSessionTimer st;
     objectTypes := objectTypes st; pluginStates := pluginStates st;
     SaveFile_safeSavingEnabled := SaveFile_safeSavingEnabled st;
     savedSessions := savedSessions st; emitted := sig :: emitted st |}.

(** ** The member functions of [Preferences] *)

Section Preferences.
Context `{Platform}.

(** *** Getters ([const] member functions, reading the store) *)

Definition showGrid (s : Settings) : bool := get "Interface/ShowGrid" true s.
Definition showTileObjectOutlines (s : Settings) : bool :=
  get "Interface/ShowTileObjectOutlines" false s.
Definition showTileAnimations (s : Settings) : bool :=
  get "Interface/ShowTileAnimations" true s.
Definition showTileCollisionShapes (s : Settings) : bool :=
  get "Interface/ShowTileCollisionShapes" false s.
Definition showObjectReferences (s : Settings) : bool :=
  get "Interface/ShowObjectReferences" true s.
Definition snapToGrid (s : Settings) : bool := get "Interface/SnapToGrid" false s.
Definition snapToFineGrid (s : Settings) : bool :=
  get "Interface/SnapToFineGrid" false s.
Definition snapToPixels (s : Settings) : bool :=
  get "Interface/SnapToPixels" false s.
Definition gridColor (s : Settings) : QColor :=
  get "Interface/GridColor" Qt_black s.
Definition gridFine (s : Settings) : Z := get "Interface/GridFine" 4 s.
Definition objectLineWidth (s : Settings) : qreal :=
  get "Interface/ObjectLineWidth" (2 # 1)%Q s.
Definition highlightCurrentLayer (s : Settings) : bool :=
  get "Interface/HighlightCurrentLayer" false s.
Definition highlightHoveredObject (s : Settings) : bool :=
  get "Interface/HighlightHoveredObject" true s.
Definition showTilesetGrid (s : Settings) : bool :=
  get "Interface/ShowTilesetGrid" true s.
Definition objectLabelVisibility (s : Settings) : Z :=
  get "Interface/ObjectLabelVisibility" AllObjectLabels s.
Definition labelForHoveredObject (s : Settings) : bool :=
  get "Interface/LabelForHoveredObject" false s.
Definition applicationStyle (s : Settings) : Z :=
  if Q_OS_MAC then get "Interface/ApplicationStyle" SystemDefaultStyle s
  else get "Interface/ApplicationStyle" TiledStyle s.
Definition baseColor (s : Settings) : QColor :=
  get "Interface/BaseColor" Qt_lightGray s.
Definition selectionColor (s : Settings) : QColor :=
  get "Interface/SelectionColor" (Rgba 48 140 198 255) s.
Definition layerDataFormat (s : Settings) : Z :=
  get "Storage/LayerDataFormat" Map_CSV s.
Definition mapRenderOrder (s : Settings) : Z :=
  get "Storage/MapRenderOrder" Map_RightDown s.
Definition safeSavingEnabled (s : Settings) : bool :=
  get "SafeSavingEnabled" true s.
Definition exportOnSave (s : Settings) : bool :=
  get "Storage/ExportOnSave" false s.

Definition exportOption (option : ExportOption) (s : Settings) : bool :=
  match option with
  | EmbedTilesets => get "Export/EmbedTilesets" false s
  | DetachTemplateInstances => get "Export/DetachTemplateInstances" false s
  | ResolveObjectTypesAndProperties =>
      get "Export/ResolveObjectTypesAndProperties" false s
  | ExportMinimized => get "Export/Minimized" false s
  end.

(* The flags of the result, as the list of the options that are set. *)
Definition exportOptions (s : Settings) : list ExportOption :=
  (if get "Export/EmbedTilesets" false s then [EmbedTilesets] else [])
  ++ (if get "Export/DetachTemplateInstances" false s
      then [DetachTemplateInstances] else [])
  ++ (if get "Export/ResolveObjectTypesAndProperties" false s
      then [ResolveObjectTypesAndProperties] else [])
  ++ (if get "Export/Minimized" false s then [ExportMinimized] else []).

Definition language (s : Settings) : string := get "Interface/Language" "" s.
Definition reloadTilesetsOnChange (s : Settings) : bool :=
  get "Storage/ReloadTilesets" true s.
Definition useOpenGL (s : Settings) : bool := get "Interface/OpenGL" false s.

Definition lastPathKey (fileType : FileType) : string :=
  "LastPaths/" +:+
  match fileType with
  | ExportedFile => "ExportedFile"
  | ExternalTileset => "ExternalTileset"
  | ImageFile => "Images"
  | ObjectTemplateFile => "ObjectTemplates"
  | ObjectTypesFile => "ObjectTypes"
  | ProjectFile => "Project"
  | WorldFile => "WorldFile"
  end.

Definition lastPath (fileType : FileType) (s : Settings) : string :=
  let path := toString (value (lastPathKey fileType) VInvalid s) in
  let path :=
    if QString_isEmpty path then
      match currentDocumentPath with
      | Some p => p
      | None => path
      end
    else path in
  if QString_isEmpty path then documentsLocation else path.

Definition firstRun (s : Settings) : QDate := get "Install/FirstRun" None s.
Definition runCount (s : Settings) : Z := get "Install/RunCount" 0 s.
Definition isPatron (s : Settings) : bool := get "Install/IsPatron" false s.
Definition donationDialogTime (s : Settings) : QDate :=
  get "Install/DonationDialogTime" None s.

(** [QDate::daysTo]: 0 when either date is null. *)
Definition daysTo (d other : QDate) : Z :=
  match d, other with
  | Some jd, Some jd' => jd' - jd
  | _, _ => 0
  end.

(** [QDate::isValid] *)
Definition QDate_isValid (d : QDate) : bool :=
  match d with Some _ => true | None => false end.

Definition shouldShowDonationDialog (s : Settings) : bool :=
  if isPatron s then false
  else if runCount s <? 7 then false
  else
    let dialogTime := donationDialogTime s in
    if negb (QDate_isValid dialogTime) then false
    else 0 <=? daysTo dialogTime (Some currentDate).

Definition recentProjects (s : Settings) : list string :=
  get "Project/RecentProjects" [] s.
Definition lastSession (s : Settings) : string :=
  let session := get "Project/LastSession" "" s in
  if QString_isEmpty session then Session_defaultFileName else session.
Definition restoreSessionOnStartup (s : Settings) : bool :=
  get "Startup/RestorePreviousSession" true s.
Definition checkForUpdates (s : Settings) : bool :=
  get "Install/CheckForUpdates" true s.
Definition displayNews (s : Settings) : bool :=
  get "Install/DisplayNews" true s.
Definition wheelZoomsByDefault (s : Settings) : bool :=
  get "Interface/WheelZoomsByDefault" false s.

Definition objectTypesFile (s : Settings) : string :=
  let file := get "Storage/ObjectTypesFile" "" s in
  if QString_isEmpty file then dataLocation +:+ "/objecttypes.xml" else file.
End Preferences.

(** ** Helpers on Qt containers *)

(** [QVariantMap::value(key)]: the invalid variant when the key is absent. *)
Fixpoint QVariantMap_value (key : string) (m : QVariantMap) : QVariant :=
  match m with
  | [] => VInvalid
  | (k, v) :: m' => if String.eqb k key then v else QVariantMap_value key m'
  end.

(** [QVariantMap::insert(key, value)]: replaces the value of an existing key,
    otherwise inserts at the key's place in the order. *)
Fixpoint QVariantMap_insert (key : string) (v : QVariant) (m : QVariantMap)
    : QVariantMap :=
  match m with
  | [] => [(key, v)]
  | (k, w) :: m' =>
      match String.compare key k with
      | Lt => (key, v) :: (k, w) :: m'
      | Eq => (key, v) :: m'
      | Gt => (k, w) :: QVariantMap_insert key v m'
      end
  end.

(** Modelled from the spec: [Session::setFileState] (session.cpp) is not part
    of the sources at hand; the session holds "per-file view state", here one
    state map per file name. *)
Definition Session_setFileState (file : string) (fileState : QVariantMap)
    (sess : Session) : Session :=
  {| fileName := fileName sess; recentFiles := recentFiles sess;
     openFiles := openFiles sess; activeFile := activeFile sess;
     fileStates := <[file := fileState]> (fileStates sess) |}.

(** The order of the keys of a [QMap<QString, T>]. *)
Definition QMap_key_le {T} (x y : string * T) : Prop :=
  String.leb x.1 y.1 = true.

#[export] Instance QMap_key_le_dec {T} : RelDecision (@QMap_key_le T).
Proof. intros x y. unfold QMap_key_le. exact (decide _). Defined.

(** The entries of a [QMap<QString, T>] in iteration order, that is by key. *)
Definition QMap_entries {T} (m : gmap string T) : list (string * T) :=
  merge_sort QMap_key_le (map_to_list m).

Section Mutators.
Context `{Platform}.

(** *** Setters *)

Definition setShowGrid (showGrid : bool) (st : State) : State :=
  emit (showGridChanged showGrid)
    (with_settings (setValue "Interface/ShowGrid" (VBool showGrid)) st).

Definition setGridFine (gridFine : Z) (st : State) : State :=
  emit (gridFineChanged gridFine)
    (with_settings (setValue "Interface/GridFine" (VInt gridFine)) st).

Definition setObjectLineWidth (lineWidth : qreal) (st : State) : State :=
  emit (objectLineWidthChanged lineWidth)
    (with_settings (setValue "Interface/ObjectLineWidth" (VDouble lineWidth)) st).

Definition setSafeSavingEnabled (enabled : bool) (st : State) : State :=
  with_safeSaving enabled
    (with_settings (setValue "Storage/SafeSavingEnabled" (VBool enabled)) st).

Definition setExportOnSave (enabled : bool) (st : State) : State :=
  with_settings (setValue "Storage/ExportOnSave" (VBool enabled)) st.

Definition setPatron (isPatron : bool) (st : State) : State :=
  emit isPatronChanged
    (with_settings (setValue "Install/IsPatron" (VBool isPatron)) st).

Definition setDonationDialogReminder (date : QDate) (st : State) : State :=
  let st := if QDate_isValid date then setPatron false st else st in
  with_settings
    (setValue "Install/DonationDialogTime" (VString (QDate_toString date))) st.

Definition setObjectTypes (objectTypes : ObjectTypes) (st : State) : State :=
  emit objectTypesChanged (with_objectTypes objectTypes st).

Definition setLastPath (fileType : FileType) (path : string) (st : State)
    : State :=
  if QString_isEmpty path then st
  else with_settings (setValue (lastPathKey fileType) (VString path)) st.

(** *** Recent projects *)

(* while (files.size() > MaxRecentFiles) files.removeLast(); *)
Equations? removeLast_while (files : list string) : list string
    by wf (length files) lt :=
  removeLast_while files with decide (MaxRecentFiles < length files)%nat := {
    | left _ => removeLast_while (removelast files);
    | right _ => files }.
Proof.
  destruct files as [|f files]; [simpl in *; lia|].
  assert (Hsplit : f :: files = removelast (f :: files) ++ [List.last (f :: files) f])
    by (apply app_removelast_last; discriminate).
  apply (f_equal length) in Hsplit. rewrite length_app in Hsplit.
  simpl in *. lia.
Defined.

Definition addToRecentFileList (fileName : string) (files : list string)
    : list string :=
  let absoluteFilePath := absoluteCleanPath fileName in
  if QString_isEmpty absoluteFilePath then files
  else
    let files := filter (λ f, f ≠ absoluteFilePath) files in
    let files := absoluteFilePath :: files in
    removeLast_while files.

Definition addRecentProject (fileName : string) (st : State) : State :=
  let st := setLastPath ProjectFile fileName st in
  let files := get "Project/RecentProjects" [] (settings st) in
  let files := addToRecentFileList fileName files in
  let st :=
    with_settings (setValue "Project/RecentProjects" (VStringList files)) st in
  emit recentProjectsChanged st.

Definition clearRecentProjects (st : State) : State :=
  emit recentProjectsChanged
    (with_settings (remove "Project/RecentProjects") st).

(** *** Debounced session saving *)

Definition saveSession (st : State) : State :=
  if negb (QTimer_isActive (mSaveSessionTimer st))
  then with_timer QTimer_start st
  else st.

Definition saveSessionNow (st : State) : State :=
  let st := emit aboutToSaveSession st in
  let st := with_timer QTimer_stop st in
  (* mSession.save(), its result unused *)
  with_saved (mSession st) st.

(** *** Plugins *)

(* One turn of the loop over pluginStates(). *)
Definition setPluginEnabled_step (lists : list string * list string)
    (entry : string * PluginState) : list string * list string :=
  let '(disabledPlugins, enabledPlugins) := lists in
  let fileName := entry.1 in
  match entry.2 with
  | PluginEnabled => (disabledPlugins, enabledPlugins ++ [fileName])
  | PluginDisabled => (disabledPlugins ++ [fileName], enabledPlugins)
  | PluginDefault | PluginStatic => (disabledPlugins, enabledPlugins)
  end.

Definition setPluginEnabled (fileName : string) (enabled : bool) (st : State)
    : State :=
  let st :=
    with_pluginStates
      (PluginManager_setPluginState fileName
         (if enabled then PluginEnabled else PluginDisabled)) st in
  let states := pluginStates st in
  let '(disabledPlugins, enabledPlugins) :=
    foldl setPluginEnabled_step ([], []) (QMap_entries states) in
  let st :=
    with_settings (setValue "Plugins/Disabled" (VStringList disabledPlugins)) st in
  with_settings (setValue "Plugins/Enabled" (VStringList enabledPlugins)) st.

(** *** The object-types file *)

Definition setObjectTypesFile (fileName : string) (st : State) : State :=
  let previousObjectTypesFile := objectTypesFile (settings st) in
  if String.eqb previousObjectTypesFile fileName then st
  else
    let st :=
      if negb (QString_isEmpty previousObjectTypesFile)
      then with_watcher (removePath previousObjectTypesFile) st
      else st in
    let st :=
      with_settings (setValue "Storage/ObjectTypesFile" (VString fileName)) st in
    with_watcher (addPath fileName) st.

Definition setObjectTypesFileLastSaved (time : QDateTime) (st : State) : State :=
  with_lastSaved time st.

Definition objectTypesFileChangedOnDisk (st : State) : State :=
  let filePath := objectTypesFile (settings st) in
  if bool_decide (lastModified filePath = mObjectTypesFileLastSaved st) then st
  else
    let '(success, objectTypes) := readObjectTypes filePath [] in
    if success then setObjectTypes objectTypes st else st.
End Mutators.

(** ** The constructor, block by block *)

Section Constructor.
Context `{Platform}.

(** Lines 75-96: retrieve the defined object types. *)
Definition ctor_objectTypes (st : State) : State :=
  let '(success, objectTypes) :=
    readObjectTypes (objectTypesFile (settings st)) [] in
  let '(objectTypes, st) :=
    if negb success then
      let names : list string := get "ObjectTypes/Names" [] (settings st) in
      let colors : list string := get "ObjectTypes/Colors" [] (settings st) in
      let objectTypes :=
        if negb (bool_decide (names = [])) then
          let count := Nat.min (length names) (length colors) in
          foldl (λ objectTypes i,
                   objectTypes ++
                     [ {| ot_name := nth i names "";
                          ot_color := QColor_fromName (nth i colors "") |} ])
                objectTypes (seq 0 count)
        else objectTypes in
      (objectTypes, st)
    else
      let st := with_settings (remove "ObjectTypes") st in
      (objectTypes, with_watcher (addPath (objectTypesFile (settings st))) st) in
  (* Object::setObjectTypes(objectTypes) *)
  with_objectTypes objectTypes st.

(** Lines 98-100: the save-session timer; its timeout runs
    [saveSessionNow]. *)
Definition ctor_saveSessionTimer (st : State) : State :=
  with_timer (λ t, {| interval := 1000; singleShot := true;
                      remaining := remaining t |}) st.

(* One turn of the loop over the legacy map states. *)
Definition ctor_migrateMapState (sess : Session) (entry : string * QVariant)
    : Session :=
  let fileName := entry.1 in
  let mapState := toMap entry.2 in
  let viewCenter := QVariantMap_value "viewCenter" mapState in
  let mapState :=
    QVariantMap_insert "viewCenter" (toSettingsValue_toPointF viewCenter)
      mapState in
  Session_setFileState fileName mapState sess.

(** Lines 145-172: migrate the preferences that need manual handling. *)
Definition ctor_migrateManual (st : State) : State :=
  if String.eqb (fileName (mSession st)) Session_defaultFileName then
    let st :=
      if contains "recentFiles" (settings st) then
        with_session (λ sess,
          {| fileName := fileName sess;
             recentFiles := get "recentFiles/fileNames" [] (settings st);
             openFiles := get "recentFiles/lastOpenFiles" [] (settings st);
             activeFile := get "recentFiles/lastActive" "" (settings st);
             fileStates := fileStates sess |}) st
      else st in
    let st :=
      if contains "MapEditor/MapStates" (settings st) then
        let mapStates : QVariantMap :=
          get "MapEditor/MapStates" [] (settings st) in
        with_session (λ sess, foldl ctor_migrateMapState sess mapStates) st
      else st in
    (* mSession.save() *)
    let saved := Session_save (mSession st) in
    let st := with_saved (mSession st) st in
    if saved then
      let st := with_settings (remove "recentFiles") st in
      with_settings (remove "MapEditor/MapStates") st
    else st
  else st.
End Constructor.

(** ** The event loop around the save-session timer *)

Section EventLoop.

(** What happens between two turns of the event loop: a caller requests a
    save, or time passes. *)
Inductive Event :=
| RequestSave
| Elapse (ms : nat).

(** [QTimer::timeout]: a single-shot timer is inactive when its slot runs;
    the slot connected in the constructor is [saveSessionNow]. *)
Definition timeout (st : State) : State :=
  let st :=
    with_timer (λ t, if singleShot t then QTimer_stop t else QTimer_start t) st in
  saveSessionNow st.

Definition elapse (ms : nat) (st : State) : State :=
  match remaining (mSaveSessionTimer st) with
  | None => st
  | Some r =>
      if (ms <? r)%nat then
        with_timer (λ t, {| interval := interval t; singleShot := singleShot t;
                            remaining := Some (r - ms)%nat |}) st
      else timeout st
  end.

Definition step (st : State) (e : Event) : State :=
  match e with
  | RequestSave => saveSession st
  | Elapse ms => elapse ms st
  end.

Definition run (events : list Event) (st : State) : State :=
  foldl step st events.

(** Total time of a run, in milliseconds. *)
Definition elapsed (events : list Event) : nat :=
  foldr (λ e acc, match e with RequestSave => acc | Elapse ms => (ms + acc)%nat end)
        0%nat events.

(** The timer is the one the constructor set up: 1000 ms, with at most
    that much left when it runs. *)
Definition timer_ready (st : State) : Prop :=
  interval (mSaveSessionTimer st) = 1000%nat ∧
  match remaining (mSaveSessionTimer st) with
  | Some r => (r ≤ 1000)%nat
  | None => True
  end.

(** Time the pending save has already waited. *)
Definition waited (st : State) : nat :=
  match remaining (mSaveSessionTimer st) with
  | Some r => (1000 - r)%nat
  | None => 0%nat
  end.

Definition duration (e : Event) : nat :=
  match e with
  | RequestSave => 0%nat
  | Elapse ms => ms
  end.
End EventLoop.

(** ** Further member functions *)

#[export] Instance ExportOption_eq_dec : EqDecision ExportOption.
Proof. solve_decision. Defined.

#[export] Instance FileType_eq_dec : EqDecision FileType.
Proof. solve_decision. Defined.

(** The value of a C++ [int] expression: 32 bits, two's complement. *)
Definition int_wrap (z : Z) : Z := (z + 2 ^ 31) mod 2 ^ 32 - 2 ^ 31.

(** [QDate::addDays]: the null date stays null (the range check on the
    resulting Julian day is left out). *)
Definition addDays (d : QDate) (ndays : Z) : QDate :=
  match d with
  | Some jd => Some (jd + ndays)
  | None => None
  end.

Section MoreMutators.
Context `{Platform}.

Definition setLayerDataFormat (layerDataFormat : Z) (st : State) : State :=
  with_settings (setValue "Storage/LayerDataFormat" (VInt layerDataFormat)) st.

Definition setMapRenderOrder (mapRenderOrder : Z) (st : State) : State :=
  with_settings (setValue "Storage/MapRenderOrder" (VInt mapRenderOrder)) st.

Definition setExportOption (option : ExportOption) (on : bool) (st : State)
    : State :=
  match option with
  | EmbedTilesets =>
      with_settings (setValue "Export/EmbedTilesets" (VBool on)) st
  | DetachTemplateInstances =>
      with_settings (setValue "Export/DetachTemplateInstances" (VBool on)) st
  | ResolveObjectTypesAndProperties =>
      with_settings
        (setValue "Export/ResolveObjectTypesAndProperties" (VBool on)) st
  | ExportMinimized =>
      with_settings (setValue "Export/Minimized" (VBool on)) st
  end.

Definition setLastSession (fileName : string) (st : State) : State :=
  with_settings (setValue "Project/LastSession" (VString fileName)) st.

Definition setRestoreSessionOnStartup (enabled : bool) (st : State) : State :=
  with_settings (setValue "Startup/RestorePreviousSession" (VBool enabled)) st.

Definition setWheelZoomsByDefault (mode : bool) (st : State) : State :=
  with_settings (setValue "Interface/WheelZoomsByDefault" (VBool mode)) st.

(** Lines 178-186 of the constructor: read the lists of enabled and disabled
    plugins into the plugin manager, the disabled ones first. *)
Definition ctor_plugins (st : State) : State :=
  let disabledPlugins : list string := get "Plugins/Disabled" [] (settings st) in
  let enabledPlugins : list string := get "Plugins/Enabled" [] (settings st) in
  let st :=
    foldl (λ st fileName,
             with_pluginStates
               (PluginManager_setPluginState fileName PluginDisabled) st)
          st disabledPlugins in
  foldl (λ st fileName,
           with_pluginStates
             (PluginManager_setPluginState fileName PluginEnabled) st)
        st enabledPlugins.
End MoreMutators.

Section UsageInfo.
Context `{Platform}.
(* QDate::addMonths, calendar arithmetic of Qt *)
Variable QDate_addMonths : QDate → Z → QDate.

(** Lines 188-204 of the constructor: keeping track of some usage
    information. *)
Definition ctor_usageInfo (st : State) : State :=
  let st :=
    if contains "Install/PatreonDialogTime" (settings st) then
      let st :=
        with_settings
          (λ s, setValue "Install/DonationDialogTime"
                  (value "Install/PatreonDialogTime" VInvalid s) s) st in
      with_settings (remove "Install/PatreonDialogTime") st
    else st in
  let st :=
    if negb (QDate_isValid (firstRun (settings st))) then
      with_settings
        (setValue "Install/FirstRun"
           (VString (QDate_toString (Some currentDate)))) st
    else st in
  let st :=
    if negb (contains "Install/DonationDialogTime" (settings st)) then
      let donationDialogTime := QDate_addMonths (firstRun (settings st)) 1 in
      let today : QDate := Some currentDate in
      let donationDialogTime :=
        if 0 <=? daysTo donationDialogTime today then addDays today 2
        else donationDialogTime in
      with_settings
        (setValue "Install/DonationDialogTime"
           (VString (QDate_toString donationDialogTime))) st
    else st in
  with_settings
    (λ s, setValue "Install/RunCount" (VInt (int_wrap (runCount s + 1))) s) st.
End UsageInfo.

(** ** Concrete inputs *)

(** A freshly started process: no settings, an untitled empty session,
    nothing watched, a stopped timer. *)
Definition State_empty : State :=
  {| settings := ∅;
     mSession := {| fileName := ""; recentFiles := []; openFiles := [];
                    activeFile := ""; fileStates := ∅ |};
     mWatcher := ∅;
     mObjectTypesFileLastSaved := None;
     mSaveSessionTimer := {| interval := 0; singleShot := false; remaining := None |};
     objectTypes := [];
     pluginStates := ∅;
     SaveFile_safeSavingEnabled := true;
     savedSessions := [];
     emitted := [] |}.

(** A machine on which session files are written ([saves = true]) or not,
    and the object-types file holds [file], or cannot be read ([None]). *)
Definition sample_platform (saves : bool) (file : option ObjectTypes)
    : Platform :=
  {| QString_toInt := λ _, 0;
     QString_toDouble := λ _, 0%Q;
     QString_number := λ _, "0";
     QString_numberF := λ _, "0";
     qRound := λ q, (Qnum q * 2 + Zpos (Qden q)) `div` (2 * Zpos (Qden q));
     QDate_fromString := λ s, if String.eqb s "2020-01-01" then Some 2458850 else None;
     QDate_toString := λ _, "";
     QColor_fromName := λ s, if String.eqb s "#ff0000" then Rgba 255 0 0 255
                             else InvalidColor;
     QColor_name := λ _, "";
     currentDate := 2458860;
     dataLocation := "/home/user/.local/share/tiled";
     documentsLocation := "/home/user/Documents";
     currentDocumentPath := None;
     absoluteCleanPath := λ f, f;
     lastModified := λ _, Some 1000;
     readObjectTypes := λ _ objectTypes,
       match file with
       | Some read => (true, objectTypes ++ read)
       | None => (false, objectTypes)
       end;
     PluginManager_setPluginState := λ f state states,
       match state with
       | PluginDefault => delete f states
       | _ => <[f := state]> states
       end;
     Session_save := λ _, saves;
     Session_defaultFileName := "";
     toSettingsValue_toPointF := λ v, v;
     MaxRecentFiles := 3;
     Q_OS_MAC := false;
     AllObjectLabels := 2;
     SystemDefaultStyle := 0;
     FusionStyle := 1;
     TiledStyle := 2;
     Map_CSV := 5;
     Map_RightDown := 0 |}.

(** A few days around 2020-01-11, with their ISO text. *)
Definition sample_dates : list (Z * string) :=
  [ (2458850, "2020-01-01"); (2458860, "2020-01-11"); (2458862, "2020-01-13");
    (2458881, "2020-02-01"); (2458891, "2020-02-11") ].

(** [sample_platform] with ISO text for the days of [sample_dates]; today is
    2020-01-11. *)
Definition dated_platform : Platform :=
  let P := sample_platform true None in
  {| QString_toInt := @QString_toInt P;
     QString_toDouble := @QString_toDouble P;
     QString_number := @QString_number P;
     QString_numberF := @QString_numberF P;
     qRound := @qRound P;
     QDate_fromString := λ s,
       fst <$> head (filter (λ entry, entry.2 = s) sample_dates);
     QDate_toString := λ d,
       match d with
       | Some jd =>
           default "" (snd <$> head (filter (λ entry, entry.1 = jd) sample_dates))
       | None => ""
       end;
     QColor_fromName := @QColor_fromName P;
     QColor_name := @QColor_name P;
     currentDate := 2458860;
     dataLocation := @dataLocation P;
     documentsLocation := @documentsLocation P;
     currentDocumentPath := @currentDocumentPath P;
     absoluteCleanPath := @absoluteCleanPath P;
     lastModified := @lastModified P;
     readObjectTypes := @readObjectTypes P;
     PluginManager_setPluginState := @PluginManager_setPluginState P;
     Session_save := @Session_save P;
     Session_defaultFileName := @Session_defaultFileName P;
     toSettingsValue_toPointF := @toSettingsValue_toPointF P;
     MaxRecentFiles := @MaxRecentFiles P;
     Q_OS_MAC := @Q_OS_MAC P;
     AllObjectLabels := @AllObjectLabels P;
     SystemDefaultStyle := @SystemDefaultStyle P;
     FusionStyle := @FusionStyle P;
     TiledStyle := @TiledStyle P;
     Map_CSV := @Map_CSV P;
     Map_RightDown := @Map_RightDown P |}.

(** [sample_platform] with an object-types file that is read up to a
    broken second entry: the read fails and leaves the first entry, "wall" in
    blue, in the list it was given. *)
Definition partial_read_platform : Platform :=
  let P := sample_platform true None in
  {| QString_toInt := @QString_toInt P;
     QString_toDouble := @QString_toDouble P;
     QString_number := @QString_number P;
     QString_numberF := @QString_numberF P;
     qRound := @qRound P;
     QDate_fromString := @QDate_fromString P;
     QDate_toString := @QDate_toString P;
     QColor_fromName := @QColor_fromName P;
     QColor_name := @QColor_name P;
     currentDate := @currentDate P;
     dataLocation := @dataLocation P;
     documentsLocation := @documentsLocation P;
     currentDocumentPath := @currentDocumentPath P;
     absoluteCleanPath := @absoluteCleanPath P;
     lastModified := @lastModified P;
     readObjectTypes := λ _ objectTypes,
       (false,
        objectTypes ++ [ {| ot_name := "wall"; ot_color := Rgba 0 0 255 255 |} ]);
     PluginManager_setPluginState := @PluginManager_setPluginState P;
     Session_save := @Session_save P;
     Session_defaultFileName := @Session_defaultFileName P;
     toSettingsValue_toPointF := @toSettingsValue_toPointF P;
     MaxRecentFiles := @MaxRecentFiles P;
     Q_OS_MAC := @Q_OS_MAC P;
     AllObjectLabels := @AllObjectLabels P;
     SystemDefaultStyle := @SystemDefaultStyle P;
     FusionStyle := @FusionStyle P;
     TiledStyle := @TiledStyle P;
     Map_CSV := @Map_CSV P;
     Map_RightDown := @Map_RightDown P |}.

(** One month later, for the days of [sample_dates]: 31 days in January. *)
Definition sample_addMonths (d : QDate) (nmonths : Z) : QDate :=
  match d with
  | Some jd => Some (jd + 31 * nmonths)
  | None => None
  end.

(** A key the manual migration of the constructor is in charge of:
    "recentFiles", "MapEditor/MapStates", or a sub-setting of either. *)
Definition legacy_key (k : string) : Prop :=
  is_under "recentFiles" k = true ∨ is_under "MapEditor/MapStates" k = true.

(** No legacy key holds a setting. *)
Definition legacy_keys_removed (s : Settings) : Prop :=
  ∀ k, legacy_key k → s !! k = None.

(** Converting a value to a [QVariant] and back gives the value. *)
Class VariantRoundTrip (T : Type) `{VariantType T} :=
  value_fromValue : ∀ x : T, value_as (fromValue x) = x.

(** * Properties *)

(** ** The settings store *)

Section StoreFacts.
Context `{Platform}.

#[export] Instance bool_roundtrip : VariantRoundTrip bool.
Proof. intros x. reflexivity. Qed.
#[export] Instance int_roundtrip : VariantRoundTrip Z.
Proof. intros x. reflexivity. Qed.
#[export] Instance qreal_roundtrip : VariantRoundTrip qreal.
Proof. intros x. reflexivity. Qed.
#[export] Instance QString_roundtrip : VariantRoundTrip string.
Proof. intros x. reflexivity. Qed.
#[export] Instance QStringList_roundtrip : VariantRoundTrip (list string).
Proof. intros x. reflexivity. Qed.
#[export] Instance QDate_roundtrip : VariantRoundTrip QDate.
Proof. intros x. reflexivity. Qed.
#[export] Instance QColor_roundtrip : VariantRoundTrip QColor.
Proof. intros x. reflexivity. Qed.

Lemma get_absent {T} `{VariantRoundTrip T} (key : string) (d : T) (s : Settings) :
  s !! key = None → get key d s = d.
Proof.
  intros Hk. unfold get, value. rewrite Hk. simpl. apply value_fromValue.
Qed.

Lemma get_present {T} `{VariantType T} (key : string) (d : T) (v : QVariant)
    (s : Settings) :
  s !! key = Some v → get key d s = value_as v.
Proof. intros Hk. unfold get, value. now rewrite Hk. Qed.

Lemma get_setValue_eq {T} `{VariantRoundTrip T} (key : string) (d x : T)
    (s : Settings) :
  get key d (setValue key (fromValue x) s) = x.
Proof.
  unfold get, value, setValue. rewrite lookup_insert_eq. simpl.
  apply value_fromValue.
Qed.

Lemma get_setValue_ne {T} `{VariantType T} (key key' : string) (d : T)
    (v : QVariant) (s : Settings) :
  key' ≠ key → get key d (setValue key' v s) = get key d s.
Proof.
  intros Hne. unfold get, value, setValue. now rewrite lookup_insert_ne.
Qed.
End StoreFacts.

(** ** Getters and setters *)

Section GetterFacts.
Context `{Platform}.

Local Ltac by_default :=
  intros;
  first
    [ apply get_absent; assumption
    | unfold applicationStyle; destruct Q_OS_MAC; apply get_absent; assumption
    | unfold exportOption; apply get_absent; assumption
    | unfold lastSession; rewrite get_absent by assumption; reflexivity
    | unfold objectTypesFile; rewrite get_absent by assumption; reflexivity
    | unfold exportOptions; rewrite !get_absent by assumption; reflexivity ].

(** C7: every typed getter, read from a store that lacks its key, returns the
    built-in default written in the getter: [showGrid] gives true, [gridFine]
    gives 4, [objectLineWidth] gives 2.0, [runCount] gives 0, and so on for
    each getter of the file; a getter is a total function, so there is no
    error to surface. *)
Theorem getters_default_when_key_absent (s : Settings) :
  (s !! "Interface/ShowGrid" = None → showGrid s = true) ∧
  (s !! "Interface/GridFine" = None → gridFine s = 4) ∧
  (s !! "Interface/ObjectLineWidth" = None → objectLineWidth s = (2 # 1)%Q) ∧
  (s !! "Install/RunCount" = None → runCount s = 0) ∧
  (s !! "Interface/ShowTileObjectOutlines" = None →
     showTileObjectOutlines s = false) ∧
  (s !! "Interface/ShowTileAnimations" = None → showTileAnimations s = true) ∧
  (s !! "Interface/ShowTileCollisionShapes" = None →
     showTileCollisionShapes s = false) ∧
  (s !! "Interface/ShowObjectReferences" = None →
     showObjectReferences s = true) ∧
  (s !! "Interface/SnapToGrid" = None → snapToGrid s = false) ∧
  (s !! "Interface/SnapToFineGrid" = None → snapToFineGrid s = false) ∧
  (s !! "Interface/SnapToPixels" = None → snapToPixels s = false) ∧
  (s !! "Interface/GridColor" = None → gridColor s = Qt_black) ∧
  (s !! "Interface/HighlightCurrentLayer" = None →
     highlightCurrentLayer s = false) ∧
  (s !! "Interface/HighlightHoveredObject" = None →
     highlightHoveredObject s = true) ∧
  (s !! "Interface/ShowTilesetGrid" = None → showTilesetGrid s = true) ∧
  (s !! "Interface/ObjectLabelVisibility" = None →
     objectLabelVisibility s = AllObjectLabels) ∧
  (s !! "Interface/LabelForHoveredObject" = None →
     labelForHoveredObject s = false) ∧
  (s !! "Interface/ApplicationStyle" = None →
     applicationStyle s = if Q_OS_MAC then SystemDefaultStyle else TiledStyle) ∧
  (s !! "Interface/BaseColor" = None → baseColor s = Qt_lightGray) ∧
  (s !! "Interface/SelectionColor" = None →
     selectionColor s = Rgba 48 140 198 255) ∧
  (s !! "Storage/LayerDataFormat" = None → layerDataFormat s = Map_CSV) ∧
  (s !! "Storage/MapRenderOrder" = None → mapRenderOrder s = Map_RightDown) ∧
  (s !! "SafeSavingEnabled" = None → safeSavingEnabled s = true) ∧
  (s !! "Storage/ExportOnSave" = None → exportOnSave s = false) ∧
  (s !! "Export/EmbedTilesets" = None → exportOption EmbedTilesets s = false) ∧
  (s !! "Export/DetachTemplateInstances" = None →
     exportOption DetachTemplateInstances s = false) ∧
  (s !! "Export/ResolveObjectTypesAndProperties" = None →
     exportOption ResolveObjectTypesAndProperties s = false) ∧
  (s !! "Export/Minimized" = None → exportOption ExportMinimized s = false) ∧
  (s !! "Interface/Language" = None → language s = "") ∧
  (s !! "Storage/ReloadTilesets" = None → reloadTilesetsOnChange s = true) ∧
  (s !! "Interface/OpenGL" = None → useOpenGL s = false) ∧
  (s !! "Install/FirstRun" = None → firstRun s = None) ∧
  (s !! "Install/IsPatron" = None → isPatron s = false) ∧
  (s !! "Install/DonationDialogTime" = None → donationDialogTime s = None) ∧
  (s !! "Project/RecentProjects" = None → recentProjects s = []) ∧
  (s !! "Project/LastSession" = None → lastSession s = Session_defaultFileName) ∧
  (s !! "Startup/RestorePreviousSession" = None →
     restoreSessionOnStartup s = true) ∧
  (s !! "Install/CheckForUpdates" = None → checkForUpdates s = true) ∧
  (s !! "Install/DisplayNews" = None → displayNews s = true) ∧
  (s !! "Interface/WheelZoomsByDefault" = None → wheelZoomsByDefault s = false) ∧
  (s !! "Storage/ObjectTypesFile" = None →
     objectTypesFile s = dataLocation +:+ "/objecttypes.xml") ∧
  (s !! "Export/EmbedTilesets" = None →
   s !! "Export/DetachTemplateInstances" = None →
   s !! "Export/ResolveObjectTypesAndProperties" = None →
   s !! "Export/Minimized" = None →
     exportOptions s = []).
Proof.
  repeat match goal with |- _ ∧ _ => split end; by_default.
Qed.

(** [lastPath] falls back on the folder of the current document, then on the
    documents folder. *)
Lemma lastPath_when_key_absent (fileType : FileType) (s : Settings) :
  s !! lastPathKey fileType = None →
  lastPath fileType s
  = match currentDocumentPath with
    | Some path => if QString_isEmpty path then documentsLocation else path
    | None => documentsLocation
    end.
Proof.
  intros Hk. unfold lastPath, value. rewrite Hk. cbn [default toString QString_isEmpty].
  now destruct currentDocumentPath.
Qed.
End GetterFacts.

(** The defaults, read from the empty store of a first run. *)
Lemma getters_default_witness :
  let H := sample_platform true None in
  (showGrid (∅ : Settings) = true) ∧
  (gridFine (∅ : Settings) = 4) ∧
  (objectLineWidth (∅ : Settings) = (2 # 1)%Q) ∧
  (runCount (∅ : Settings) = 0) ∧
  (showTileObjectOutlines (∅ : Settings) = false) ∧
  (showTileAnimations (∅ : Settings) = true) ∧
  (showTileCollisionShapes (∅ : Settings) = false) ∧
  (showObjectReferences (∅ : Settings) = true) ∧
  (snapToGrid (∅ : Settings) = false) ∧
  (snapToFineGrid (∅ : Settings) = false) ∧
  (snapToPixels (∅ : Settings) = false) ∧
  (gridColor (∅ : Settings) = Qt_black) ∧
  (highlightCurrentLayer (∅ : Settings) = false) ∧
  (highlightHoveredObject (∅ : Settings) = true) ∧
  (showTilesetGrid (∅ : Settings) = true) ∧
  (objectLabelVisibility (∅ : Settings) = AllObjectLabels) ∧
  (labelForHoveredObject (∅ : Settings) = false) ∧
  (applicationStyle (∅ : Settings) = if Q_OS_MAC then SystemDefaultStyle else TiledStyle) ∧
  (baseColor (∅ : Settings) = Qt_lightGray) ∧
  (selectionColor (∅ : Settings) = Rgba 48 140 198 255) ∧
  (layerDataFormat (∅ : Settings) = Map_CSV) ∧
  (mapRenderOrder (∅ : Settings) = Map_RightDown) ∧
  (safeSavingEnabled (∅ : Settings) = true) ∧
  (exportOnSave (∅ : Settings) = false) ∧
  (exportOption EmbedTilesets (∅ : Settings) = false) ∧
  (exportOption DetachTemplateInstances (∅ : Settings) = false) ∧
  (exportOption ResolveObjectTypesAndProperties (∅ : Settings) = false) ∧
  (exportOption ExportMinimized (∅ : Settings) = false) ∧
  (language (∅ : Settings) = "") ∧
  (reloadTilesetsOnChange (∅ : Settings) = true) ∧
  (useOpenGL (∅ : Settings) = false) ∧
  (firstRun (∅ : Settings) = None) ∧
  (isPatron (∅ : Settings) = false) ∧
  (donationDialogTime (∅ : Settings) = None) ∧
  (recentProjects (∅ : Settings) = []) ∧
  (lastSession (∅ : Settings) = Session_defaultFileName) ∧
  (restoreSessionOnStartup (∅ : Settings) = true) ∧
  (checkForUpdates (∅ : Settings) = true) ∧
  (displayNews (∅ : Settings) = true) ∧
  (wheelZoomsByDefault (∅ : Settings) = false) ∧
  (objectTypesFile (∅ : Settings) = dataLocation +:+ "/objecttypes.xml") ∧
  (exportOptions (∅ : Settings) = []).
Proof.
  intros H.
  pose proof (getters_default_when_key_absent (H := H) ∅) as Hthm.
  repeat lazymatch type of Hthm with
    | (_ → _) ∧ _ =>
        let H1 := fresh "Hget" in
        destruct Hthm as [H1 Hthm]; split; [apply H1; reflexivity|]
    end.
  apply Hthm; reflexivity.
Defined.

Section SafeSaving.
Context `{Platform}.

(** The setter writes "Storage/SafeSavingEnabled", the getter reads
    "SafeSavingEnabled": the getter's answer is what it was before the call. *)
Lemma safeSavingEnabled_unaffected_by_setter (b : bool) (st : State) :
  safeSavingEnabled (settings (setSafeSavingEnabled b st))
  = safeSavingEnabled (settings st).
Proof.
  unfold safeSavingEnabled, setSafeSavingEnabled, with_safeSaving, with_settings.
  cbn [settings]. apply get_setValue_ne. discriminate.
Qed.

(** C1: read-after-write of the safe-saving setting.  On a first run (empty
    store) [setSafeSavingEnabled(false)] stores false under
    "Storage/SafeSavingEnabled" and hands false to [SaveFile], yet
    [safeSavingEnabled()] afterwards still returns the default true, because
    it reads the key "SafeSavingEnabled". *)
Theorem safeSavingEnabled_not_read_back :
  let st := setSafeSavingEnabled false State_empty in
  settings st !! "Storage/SafeSavingEnabled" = Some (VBool false) ∧
  SaveFile_safeSavingEnabled st = false ∧
  safeSavingEnabled (settings st) = true.
Proof.
  cbv zeta. split; [|split].
  - unfold setSafeSavingEnabled. simpl. apply lookup_insert_eq.
  - reflexivity.
  - rewrite safeSavingEnabled_unaffected_by_setter. reflexivity.
Qed.

(** The sibling pair [exportOnSave]/[setExportOnSave] shares one key and does
    read back what was written. *)
Lemma exportOnSave_read_back (b : bool) (st : State) :
  exportOnSave (settings (setExportOnSave b st)) = b.
Proof.
  unfold exportOnSave, setExportOnSave, with_settings. cbn [settings].
  exact (get_setValue_eq "Storage/ExportOnSave" false b (settings st)).
Qed.
End SafeSaving.

(** ** The donation dialog *)

Section Donation.
Context `{Platform}.

(** C9: [shouldShowDonationDialog] answers false for a patron, for fewer than
    seven runs, and for an invalid stored dialog date; in every other case it
    answers true exactly when the stored date is today or earlier. *)
Theorem shouldShowDonationDialog_spec (s : Settings) :
  (isPatron s = true ∨ runCount s < 7 ∨ donationDialogTime s = None →
   shouldShowDonationDialog s = false) ∧
  (∀ d, isPatron s = false → 7 ≤ runCount s → donationDialogTime s = Some d →
        (shouldShowDonationDialog s = true ↔ d ≤ currentDate)).
Proof.
  unfold shouldShowDonationDialog. split.
  - intros [Hp | [Hr | Hd]].
    + now rewrite Hp.
    + destruct (isPatron s); [reflexivity|].
      apply Z.ltb_lt in Hr. now rewrite Hr.
    + destruct (isPatron s); [reflexivity|].
      destruct (runCount s <? 7); [reflexivity|].
      now rewrite Hd.
  - intros d Hp Hr Hd. rewrite Hp, Hd.
    apply Z.ltb_ge in Hr. rewrite Hr. simpl.
    rewrite Z.leb_le. lia.
Qed.
End Donation.

(** A non-patron on the eighth run, reminded on 2020-01-01, ten days ago. *)
Lemma shouldShowDonationDialog_witness :
  let H := sample_platform true None in
  let s : Settings :=
    <["Install/RunCount" := VInt 8]>
      (<["Install/DonationDialogTime" := VString "2020-01-01"]> ∅) in
  shouldShowDonationDialog (<["Install/IsPatron" := VBool true]> s) = false ∧
  (shouldShowDonationDialog s = true ↔ 2458850 ≤ currentDate).
Proof.
  intros H s. split.
  - apply (proj1 (shouldShowDonationDialog_spec (H := H) _)). left. reflexivity.
  - apply (proj2 (shouldShowDonationDialog_spec (H := H) s) 2458850);
      [reflexivity | vm_compute; discriminate | reflexivity].
Defined.

(** ** The object-types file *)

Section ObjectTypesFile.
Context `{Platform}.

(** C10: [setObjectTypesFile(fileName)] returns at once, with the store, the
    watcher and everything else as they were, when [fileName] is the current
    [objectTypesFile()]; only for a different name does it stop watching the
    previous path (when that is not empty), store the name under
    "Storage/ObjectTypesFile" and watch the new path. *)
Theorem setObjectTypesFile_frame (fileName : string) (st : State) :
  let previous := objectTypesFile (settings st) in
  let st' := setObjectTypesFile fileName st in
  (fileName = previous → st' = st) ∧
  (st' ≠ st → fileName ≠ previous) ∧
  (fileName ≠ previous →
     settings st' = <["Storage/ObjectTypesFile" := VString fileName]> (settings st) ∧
     mWatcher st' =
       {[fileName]} ∪ (if decide (previous = "") then mWatcher st
                       else mWatcher st ∖ {[previous]}) ∧
     mSession st' = mSession st ∧
     objectTypes st' = objectTypes st ∧
     emitted st' = emitted st).
Proof.
  cbv zeta. unfold setObjectTypesFile.
  destruct (String.eqb_spec (objectTypesFile (settings st)) fileName) as [Heq|Hne].
  - split; [reflexivity|]. split; [congruence|]. intros Hne. congruence.
  - split; [congruence|]. split; [congruence|]. intros _.
    destruct (objectTypesFile (settings st)) as [|c previous] eqn:Hprev.
    + destruct (decide ("" = "")) as [_|Hn]; [|now destruct Hn].
      repeat split; reflexivity.
    + destruct (decide (String c previous = "")) as [Hn|_]; [discriminate Hn|].
      repeat split; reflexivity.
Qed.

(** C5: when the watcher reports the object-types file changed, nothing
    happens if the file's last-modified time is the time recorded at the
    application's own last save; otherwise the file is read again, a
    successful read replaces the whole object-type list in one assignment and
    emits [objectTypesChanged], and a failed read keeps everything as it
    was. *)
Theorem objectTypesFileChangedOnDisk_spec (st : State) :
  let file := objectTypesFile (settings st) in
  let st' := objectTypesFileChangedOnDisk st in
  (lastModified file = mObjectTypesFileLastSaved st → st' = st) ∧
  (∀ time, lastModified file = time →
     objectTypesFileChangedOnDisk (setObjectTypesFileLastSaved time st)
     = setObjectTypesFileLastSaved time st) ∧
  (lastModified file ≠ mObjectTypesFileLastSaved st →
     ∀ read, readObjectTypes file [] = (true, read) →
       objectTypes st' = read ∧
       emitted st' = objectTypesChanged :: emitted st ∧
       settings st' = settings st ∧
       mObjectTypesFileLastSaved st' = mObjectTypesFileLastSaved st) ∧
  (lastModified file ≠ mObjectTypesFileLastSaved st →
     ∀ partial, readObjectTypes file [] = (false, partial) → st' = st).
Proof.
  cbv zeta. unfold objectTypesFileChangedOnDisk. split; [|split; [|split]].
  - intros Heq. now rewrite bool_decide_eq_true_2.
  - intros time Heq.
    unfold setObjectTypesFileLastSaved, with_lastSaved.
    cbn [settings mObjectTypesFileLastSaved].
    now rewrite bool_decide_eq_true_2.
  - intros Hne read Hread.
    rewrite bool_decide_eq_false_2 by assumption. rewrite Hread.
    repeat split; reflexivity.
  - intros Hne partial Hread.
    rewrite bool_decide_eq_false_2 by assumption. now rewrite Hread.
Qed.
End ObjectTypesFile.

(** Choosing "/tmp/types.xml" on a first run, and choosing the default path
    again. *)
Lemma setObjectTypesFile_witness :
  let H := sample_platform true None in
  let default_path := "/home/user/.local/share/tiled/objecttypes.xml" in
  setObjectTypesFile default_path State_empty = State_empty ∧
  settings (setObjectTypesFile "/tmp/types.xml" State_empty)
  = <["Storage/ObjectTypesFile" := VString "/tmp/types.xml"]> ∅ ∧
  mWatcher (setObjectTypesFile "/tmp/types.xml" State_empty)
  = {["/tmp/types.xml"]} ∪ (∅ ∖ {[default_path]}).
Proof.
  intros H default_path.
  pose proof (setObjectTypesFile_frame (H := H) default_path State_empty)
    as (Hsame & _ & _).
  pose proof (setObjectTypesFile_frame (H := H) "/tmp/types.xml" State_empty)
    as (_ & _ & Hother).
  split; [apply Hsame; reflexivity|].
  destruct Hother as (Hs & Hw & _); [discriminate|].
  split; [exact Hs | exact Hw].
Defined.

(** The file changed at time 1000: a reload when the last own save was
    earlier or never, none when it was at 1000, and no change when the file
    cannot be read. *)
Lemma objectTypesFileChangedOnDisk_witness :
  let red := {| ot_name := "enemy"; ot_color := Rgba 255 0 0 255 |} in
  let H := sample_platform true (Some [red]) in
  let H' := sample_platform true None in
  let saved := setObjectTypesFileLastSaved (Some 1000) State_empty in
  objectTypesFileChangedOnDisk (H := H) saved = saved ∧
  objectTypes (objectTypesFileChangedOnDisk (H := H) State_empty) = [red] ∧
  emitted (objectTypesFileChangedOnDisk (H := H) State_empty)
  = [objectTypesChanged] ∧
  objectTypesFileChangedOnDisk (H := H') State_empty = State_empty.
Proof.
  intros red H H' saved.
  pose proof (objectTypesFileChangedOnDisk_spec (H := H) saved) as (Hskip & _).
  pose proof (objectTypesFileChangedOnDisk_spec (H := H) State_empty)
    as (_ & _ & Hread & _).
  pose proof (objectTypesFileChangedOnDisk_spec (H := H') State_empty)
    as (_ & _ & _ & Hfail).
  split; [apply Hskip; reflexivity|].
  destruct (Hread ltac:(discriminate) [red] eq_refl) as (Ho & He & _).
  split; [exact Ho|]. split; [exact He|].
  apply (Hfail ltac:(discriminate) [] eq_refl).
Defined.

(** ** Recent projects *)

Section RecentProjects.
Context `{Platform}.

(** The trimming loop keeps the first [MaxRecentFiles] entries. *)
Lemma removeLast_while_take (files : list string) :
  removeLast_while files = take MaxRecentFiles files.
Proof.
  funelim (removeLast_while files).
  - rewrite H0. rewrite removelast_firstn_len.
    rewrite take_take. f_equal. lia.
  - symmetry. apply take_ge. lia.
Qed.

Lemma addToRecentFileList_nonempty (fileName : string) (files : list string) :
  absoluteCleanPath fileName ≠ "" →
  addToRecentFileList fileName files
  = take MaxRecentFiles
      (absoluteCleanPath fileName
         :: filter (λ f, f ≠ absoluteCleanPath fileName) files).
Proof.
  intros Hne. unfold addToRecentFileList.
  destruct (absoluteCleanPath fileName) eqn:Hp; [congruence|].
  simpl QString_isEmpty. cbv iota. apply removeLast_while_take.
Qed.

Lemma addToRecentFileList_empty (fileName : string) (files : list string) :
  absoluteCleanPath fileName = "" →
  addToRecentFileList fileName files = files.
Proof. intros Hp. unfold addToRecentFileList. now rewrite Hp. Qed.

Lemma filter_other_take_removed (path : string) (n : nat) (files : list string) :
  filter (λ f, f = path) (take n (filter (λ f, f ≠ path) files)) = [].
Proof.
  assert (Hall : Forall (λ f, f ≠ path) (take n (filter (λ f, f ≠ path) files))).
  { apply Forall_take. apply Forall_forall. intros f Hf.
    apply list_elem_of_filter in Hf. tauto. }
  induction Hall as [|f l Hf _ IH]; [reflexivity|].
  now rewrite filter_cons_False.
Qed.

Lemma get_QStringList_setValue (key : string) (d l : list string) (s : Settings) :
  get key d (setValue key (VStringList l) s) = l.
Proof. exact (get_setValue_eq key d l s). Qed.

(** What [addRecentProject] leaves under "Project/RecentProjects". *)
Lemma recentProjects_addRecentProject (fileName : string) (st : State) :
  recentProjects (settings (addRecentProject fileName st))
  = addToRecentFileList fileName (recentProjects (settings st)).
Proof.
  unfold addRecentProject, recentProjects, emit, with_settings.
  cbn [settings].
  rewrite get_QStringList_setValue.
  f_equal. unfold setLastPath.
  destruct (QString_isEmpty fileName); [reflexivity|].
  unfold with_settings. cbn [settings].
  apply get_setValue_ne. destruct ProjectFile; discriminate.
Qed.

(** C8: after [addRecentProject(fileName)], when the cleaned absolute path of
    [fileName] is not empty the list under "Project/RecentProjects" starts
    with that path, holds it exactly once and has at most [MaxRecentFiles]
    entries; when the path is empty the list is the one from before.
    [MaxRecentFiles] is a constant of the missing header, taken to be at
    least 1. *)
Theorem addRecentProject_recentProjects (fileName : string) (st : State) :
  (1 ≤ MaxRecentFiles)%nat →
  let path := absoluteCleanPath fileName in
  let files' := recentProjects (settings (addRecentProject fileName st)) in
  (path ≠ "" →
     head files' = Some path ∧
     length (filter (λ f, f = path) files') = 1%nat ∧
     (length files' ≤ MaxRecentFiles)%nat) ∧
  (path = "" → files' = recentProjects (settings st)).
Proof.
  intros Hmax. cbv zeta. rewrite recentProjects_addRecentProject. split.
  - intros Hne. rewrite addToRecentFileList_nonempty by assumption.
    destruct MaxRecentFiles as [|n] eqn:Hn; [lia|].
    rewrite firstn_cons. split; [reflexivity|]. split.
    + rewrite filter_cons_True by reflexivity.
      now rewrite filter_other_take_removed.
    + simpl. rewrite length_take. lia.
  - intros Hp. now apply addToRecentFileList_empty.
Qed.
End RecentProjects.

(** A store that lists four recent projects, one of them twice. *)
Example addRecentProject_example :
  let H := sample_platform true None in
  let st := with_settings
              (setValue "Project/RecentProjects"
                 (VStringList ["/p/a.tiled-project"; "/p/b.tiled-project";
                               "/p/c.tiled-project"; "/p/b.tiled-project"]))
              State_empty in
  recentProjects (settings (addRecentProject "/p/b.tiled-project" st))
  = ["/p/b.tiled-project"; "/p/a.tiled-project"; "/p/c.tiled-project"]
  ∧ recentProjects (settings (addRecentProject "/p/d.tiled-project" st))
  = ["/p/d.tiled-project"; "/p/a.tiled-project"; "/p/b.tiled-project"].
Proof. split; vm_compute; reflexivity. Qed.

Lemma addRecentProject_witness :
  let H := sample_platform true None in
  let st := with_settings
              (setValue "Project/RecentProjects"
                 (VStringList ["/p/a.tiled-project"; "/p/b.tiled-project";
                               "/p/c.tiled-project"; "/p/b.tiled-project"]))
              State_empty in
  let files' := recentProjects (settings (addRecentProject "/p/b.tiled-project" st)) in
  (1 ≤ MaxRecentFiles)%nat ∧
  head files' = Some "/p/b.tiled-project" ∧
  length (filter (λ f, f = "/p/b.tiled-project") files') = 1%nat ∧
  (length files' ≤ MaxRecentFiles)%nat ∧
  recentProjects (settings (addRecentProject "" st)) = recentProjects (settings st).
Proof.
  intros H st files'.
  assert (Hmax : (1 ≤ MaxRecentFiles)%nat) by (simpl; lia).
  split; [exact Hmax|].
  pose proof (addRecentProject_recentProjects (H := H) "/p/b.tiled-project" st Hmax)
    as (Hadd & _).
  pose proof (addRecentProject_recentProjects (H := H) "" st Hmax) as (_ & Hkeep).
  destruct Hadd as (Hhead & Honce & Hlen); [discriminate|].
  split; [exact Hhead|]. split; [exact Honce|]. split; [exact Hlen|].
  apply Hkeep. reflexivity.
Defined.

(** ** Start-up: the object types *)

Section LegacyObjectTypes.
Context `{Platform}.

Lemma foldl_append_each {A B} (f : B → A) (acc : list A) (l : list B) :
  foldl (λ acc i, acc ++ [f i]) acc l = acc ++ (f <$> l).
Proof.
  revert acc. induction l as [|x l IH]; intros acc; simpl.
  - now rewrite app_nil_r.
  - rewrite IH. now rewrite <- app_assoc.
Qed.

(** The object types the constructor installs after a failed read that left
    [partial] in the list: the legacy pairs, appended. *)
Lemma ctor_objectTypes_after_failed_read (st : State) (partial : ObjectTypes) :
  readObjectTypes (objectTypesFile (settings st)) [] = (false, partial) →
  let names : list string := get "ObjectTypes/Names" [] (settings st) in
  let colors : list string := get "ObjectTypes/Colors" [] (settings st) in
  objectTypes (ctor_objectTypes st)
  = partial ++
    (if decide (names = []) then []
     else (λ i, {| ot_name := nth i names "";
                   ot_color := QColor_fromName (nth i colors "") |})
            <$> seq 0 (Nat.min (length names) (length colors))).
Proof.
  intros Hread. cbv zeta. unfold ctor_objectTypes. rewrite Hread.
  cbn [negb]. unfold with_objectTypes. cbn [objectTypes].
  destruct (decide (get "ObjectTypes/Names" [] (settings st) = [])) as [Hn|Hn].
  - rewrite bool_decide_eq_true_2 by assumption. cbn [negb].
    now rewrite app_nil_r.
  - rewrite bool_decide_eq_false_2 by assumption. cbn [negb].
    apply foldl_append_each.
Qed.

(** The case of a failed read that leaves the list it was given empty: the
    object types are rebuilt from the legacy lists "ObjectTypes/Names" and
    "ObjectTypes/Colors" alone; with no names the list is empty. *)
Corollary ctor_objectTypes_legacy_fallback (st : State) :
  readObjectTypes (objectTypesFile (settings st)) [] = (false, []) →
  let names : list string := get "ObjectTypes/Names" [] (settings st) in
  let colors : list string := get "ObjectTypes/Colors" [] (settings st) in
  let result := objectTypes (ctor_objectTypes st) in
  length result = Nat.min (length names) (length colors) ∧
  (∀ (i : nat) name color,
     names !! i = Some name → colors !! i = Some color →
     result !! i = Some {| ot_name := name; ot_color := QColor_fromName color |}) ∧
  (names = [] → result = []).
Proof.
  intros Hread. cbv zeta.
  rewrite (ctor_objectTypes_after_failed_read st [] Hread). cbv zeta.
  rewrite app_nil_l.
  destruct (decide (get "ObjectTypes/Names" [] (settings st) = [])) as [Hn|Hn].
  - rewrite Hn. repeat split.
    intros i name color Hname. now rewrite lookup_nil in Hname.
  - split; [|split].
    + now rewrite length_fmap, length_seq.
    + intros i name color Hname Hcolor.
      rewrite list_lookup_fmap, lookup_seq_lt
        by (apply lookup_lt_Some in Hname, Hcolor; lia).
      cbn [fmap option_fmap option_map Nat.add].
      rewrite !nth_lookup, Hname, Hcolor. reflexivity.
    + intros Hnil. contradiction.
Qed.
End LegacyObjectTypes.

(** Three legacy names and two legacy colours give two object types. *)
Lemma ctor_objectTypes_witness :
  let H := sample_platform true None in
  let st := with_settings
              (λ s, setValue "ObjectTypes/Names" (VStringList ["enemy"; "door"; "key"])
                      (setValue "ObjectTypes/Colors" (VStringList ["#ff0000"; "none"]) s))
              State_empty in
  objectTypes (ctor_objectTypes st)
  = [ {| ot_name := "enemy"; ot_color := Rgba 255 0 0 255 |};
      {| ot_name := "door"; ot_color := InvalidColor |} ]
  ∧ objectTypes (ctor_objectTypes State_empty) = [].
Proof.
  intros H st.
  pose proof (ctor_objectTypes_legacy_fallback (H := H) st eq_refl)
    as (Hlen & Hnth & _).
  pose proof (ctor_objectTypes_legacy_fallback (H := H) State_empty eq_refl)
    as (_ & _ & Hnil).
  split; [|apply Hnil; reflexivity].
  pose proof (Hnth 0%nat "enemy" "#ff0000" eq_refl eq_refl) as H0.
  pose proof (Hnth 1%nat "door" "none" eq_refl eq_refl) as H1.
  destruct (objectTypes (ctor_objectTypes st)) as [|o0 [|o1 [|o2 l]]];
    try discriminate.
  simpl in H0, H1. congruence.
Defined.

Section FailedRead.
Context `{Platform}.

(** C2, as amended: when reading the object-types file fails at start-up,
    the object types are the entries the failed read left in the list it was
    given, followed by the legacy pairs: the [i]-th name of
    "ObjectTypes/Names" with the colour of the [i]-th string of
    "ObjectTypes/Colors", for every [i] below the shorter length, and nothing
    else.  With no names nothing is appended; the list is then empty when the
    failed read left nothing. *)
Theorem ctor_objectTypes_failed_read (st : State) :
  (readObjectTypes (objectTypesFile (settings st)) []).1 = false →
  let kept := (readObjectTypes (objectTypesFile (settings st)) []).2 in
  let names : list string := get "ObjectTypes/Names" [] (settings st) in
  let colors : list string := get "ObjectTypes/Colors" [] (settings st) in
  let result := objectTypes (ctor_objectTypes st) in
  take (length kept) result = kept ∧
  length result = (length kept + Nat.min (length names) (length colors))%nat ∧
  (∀ (i : nat) name color,
     names !! i = Some name → colors !! i = Some color →
     result !! (length kept + i)%nat
     = Some {| ot_name := name; ot_color := QColor_fromName color |}) ∧
  (names = [] → result = kept) ∧
  (kept = [] → names = [] → result = []).
Proof.
  intros Hfailed. cbv zeta.
  destruct (readObjectTypes (objectTypesFile (settings st)) [])
    as [success kept] eqn:Hread.
  cbn [fst snd] in *. subst success.
  rewrite (ctor_objectTypes_after_failed_read st kept Hread). cbv zeta.
  destruct (decide (get "ObjectTypes/Names" [] (settings st) = [])) as [Hn|Hn].
  - rewrite app_nil_r, Hn. split; [apply take_ge; lia|].
    split; [simpl; lia|]. split.
    + intros i name color Hname. now rewrite lookup_nil in Hname.
    + split; [reflexivity|]. now intros ->.
  - split; [now rewrite take_app_length|].
    split; [now rewrite length_app, length_fmap, length_seq|]. split.
    + intros i name color Hname Hcolor.
      rewrite lookup_app_r by lia.
      replace (length kept + i - length kept)%nat with i by lia.
      rewrite list_lookup_fmap, lookup_seq_lt
        by (apply lookup_lt_Some in Hname, Hcolor; lia).
      cbn [fmap option_fmap option_map Nat.add].
      rewrite !nth_lookup, Hname, Hcolor. reflexivity.
    + split; intros; contradiction.
Qed.
End FailedRead.

(** A failed read that left "wall", over one legacy name and colour. *)
Lemma ctor_objectTypes_failed_read_witness :
  let H := partial_read_platform in
  let st := with_settings
              (λ s, setValue "ObjectTypes/Names" (VStringList ["enemy"])
                      (setValue "ObjectTypes/Colors" (VStringList ["#ff0000"]) s))
              State_empty in
  objectTypes (ctor_objectTypes st)
  = [ {| ot_name := "wall"; ot_color := Rgba 0 0 255 255 |};
      {| ot_name := "enemy"; ot_color := Rgba 255 0 0 255 |} ].
Proof.
  intros H st.
  pose proof (ctor_objectTypes_failed_read (H := H) st eq_refl)
    as (Hkept & Hlen & Hnth & _).
  pose proof (Hnth 0%nat "enemy" "#ff0000" eq_refl eq_refl) as Hpair.
  destruct (objectTypes (ctor_objectTypes st)) as [|o0 [|o1 [|o2 l]]];
    try discriminate.
  cbn in Hkept, Hpair. congruence.
Defined.

(** The claim as first stated fails: on a first start (no legacy names) whose
    read of the object-types file fails after one entry, the object-type
    list is not empty. *)
Lemma ctor_objectTypes_counterexample :
  let H := partial_read_platform in
  (readObjectTypes (objectTypesFile (settings State_empty)) []).1 = false ∧
  get "ObjectTypes/Names" [] (settings State_empty) = ([] : list string) ∧
  objectTypes (ctor_objectTypes State_empty)
  = [ {| ot_name := "wall"; ot_color := Rgba 0 0 255 255 |} ] ∧
  objectTypes (ctor_objectTypes State_empty) ≠ [].
Proof.
  intros H. split; [reflexivity|]. split; [reflexivity|].
  split; [reflexivity|]. discriminate.
Qed.

(** ** Plugins *)

Section Plugins.
Context `{Platform}.

(** The file names of the entries in state [state], in iteration order. *)
Local Abbreviation in_state state entries :=
  ((filter (λ entry : string * PluginState, entry.2 = state) entries).*1).

Lemma setPluginEnabled_loop (entries : list (string * PluginState))
    (disabledPlugins enabledPlugins : list string) :
  foldl setPluginEnabled_step (disabledPlugins, enabledPlugins) entries
  = (disabledPlugins ++ in_state PluginDisabled entries,
     enabledPlugins ++ in_state PluginEnabled entries).
Proof.
  revert disabledPlugins enabledPlugins.
  induction entries as [|[f state] entries IH]; intros disabledPlugins enabledPlugins.
  - simpl. now rewrite !app_nil_r.
  - cbn [foldl]. unfold setPluginEnabled_step at 2. cbn [fst snd].
    destruct state; rewrite IH;
      repeat (first [ rewrite filter_cons_True by reflexivity
                    | rewrite filter_cons_False by discriminate ]);
      cbn [fmap list_fmap fst]; now rewrite <- ?app_assoc.
Qed.

Lemma in_state_elem_of (states : gmap string PluginState) (state : PluginState)
    (f : string) :
  f ∈ in_state state (QMap_entries states) ↔ states !! f = Some state.
Proof.
  rewrite list_elem_of_fmap. split.
  - intros ([f' state'] & -> & Hin). apply list_elem_of_filter in Hin as [Hst Hin].
    unfold QMap_entries in Hin. rewrite merge_sort_Permutation in Hin.
    apply elem_of_map_to_list in Hin. simpl in *. congruence.
  - intros Hf. exists (f, state). split; [reflexivity|].
    apply list_elem_of_filter. split; [reflexivity|].
    unfold QMap_entries. rewrite merge_sort_Permutation.
    now apply elem_of_map_to_list.
Qed.

Lemma in_state_NoDup (states : gmap string PluginState) (state : PluginState) :
  NoDup (in_state state (QMap_entries states)).
Proof.
  apply (sublist_NoDup _ ((QMap_entries states).*1)).
  - unfold QMap_entries. rewrite merge_sort_Permutation.
    apply NoDup_fst_map_to_list.
  - apply fmap_sublist, sublist_filter.
Qed.

(** C6: after [setPluginEnabled(fileName, enabled)] the list stored under
    "Plugins/Enabled" holds exactly the file names whose state in the plugin
    manager is [PluginEnabled], and the list under "Plugins/Disabled" exactly
    those whose state is [PluginDisabled], each name once; a plugin in state
    [PluginDefault] or [PluginStatic] is in neither.  Both lists are computed
    from the state map alone, whatever the store held before. *)
Theorem setPluginEnabled_persisted_lists (fileName : string) (enabled : bool)
    (st : State) :
  let st' := setPluginEnabled fileName enabled st in
  ∃ enabledPlugins disabledPlugins : list string,
    settings st' !! "Plugins/Enabled" = Some (VStringList enabledPlugins) ∧
    settings st' !! "Plugins/Disabled" = Some (VStringList disabledPlugins) ∧
    NoDup enabledPlugins ∧ NoDup disabledPlugins ∧
    (∀ f, f ∈ enabledPlugins ↔ pluginStates st' !! f = Some PluginEnabled) ∧
    (∀ f, f ∈ disabledPlugins ↔ pluginStates st' !! f = Some PluginDisabled) ∧
    (∀ f, pluginStates st' !! f = Some PluginDefault
          ∨ pluginStates st' !! f = Some PluginStatic →
          (f ∉ enabledPlugins) ∧ (f ∉ disabledPlugins)) ∧
    pluginStates st'
    = PluginManager_setPluginState fileName
        (if enabled then PluginEnabled else PluginDisabled) (pluginStates st).
Proof.
  cbv zeta. unfold setPluginEnabled. rewrite setPluginEnabled_loop.
  cbn [app]. unfold with_settings, with_pluginStates, setValue.
  cbn [settings pluginStates].
  set (states := PluginManager_setPluginState fileName _ (pluginStates st)).
  exists (in_state PluginEnabled (QMap_entries states)),
         (in_state PluginDisabled (QMap_entries states)).
  split; [apply lookup_insert_eq|].
  split; [(rewrite lookup_insert_ne by discriminate); apply lookup_insert_eq|].
  split; [apply in_state_NoDup|]. split; [apply in_state_NoDup|].
  split; [intros f; apply in_state_elem_of|].
  split; [intros f; apply in_state_elem_of|].
  split; [|reflexivity].
  intros f Hf. rewrite !in_state_elem_of.
  split; intros Hst; rewrite Hst in Hf; destruct Hf; discriminate.
Qed.
End Plugins.

(** Disabling "libtmx.so" in a manager that knows one enabled and one static
    plugin, over a store with a stale list. *)
Example setPluginEnabled_example :
  let H := sample_platform true None in
  let st := with_pluginStates
              (λ _, <["libjson.so" := PluginEnabled]>
                      (<["libpython.so" := PluginStatic]> ∅))
              (with_settings
                 (setValue "Plugins/Enabled" (VStringList ["stale.so"]))
                 State_empty) in
  let st' := setPluginEnabled "libtmx.so" false st in
  settings st' !! "Plugins/Enabled" = Some (VStringList ["libjson.so"]) ∧
  settings st' !! "Plugins/Disabled" = Some (VStringList ["libtmx.so"]).
Proof. split; vm_compute; reflexivity. Qed.

(** ** Start-up: the manual migration *)

Section ManualMigration.
Context `{Platform}.

Lemma lookup_remove_under (key k : string) (s : Settings) :
  is_under key k = true → remove key s !! k = None.
Proof.
  intros Hu. unfold remove. apply map_lookup_filter_None. right.
  intros v _. simpl. congruence.
Qed.

Lemma lookup_remove_other (key k : string) (s : Settings) :
  is_under key k = false → remove key s !! k = s !! k.
Proof.
  intros Hu. unfold remove. destruct (s !! k) as [v|] eqn:Hk.
  - apply map_lookup_filter_Some. split; [assumption|exact Hu].
  - apply map_lookup_filter_None. now left.
Qed.

Lemma legacy_key_dec (k : string) : {legacy_key k} + {¬ legacy_key k}.
Proof.
  unfold legacy_key.
  destruct (is_under "recentFiles" k); [left; now left|].
  destruct (is_under "MapEditor/MapStates" k); [left; now right|].
  right. intros [Hk|Hk]; discriminate.
Qed.

(** The store after both removals. *)
Lemma lookup_remove_legacy (k : string) (s : Settings) :
  remove "MapEditor/MapStates" (remove "recentFiles" s) !! k
  = if legacy_key_dec k then None else s !! k.
Proof.
  destruct (legacy_key_dec k) as [Hk|Hk].
  - destruct (is_under "MapEditor/MapStates" k) eqn:Hm.
    + now apply lookup_remove_under.
    + rewrite lookup_remove_other by assumption.
      apply lookup_remove_under. destruct Hk; congruence.
  - unfold legacy_key in Hk.
    destruct (is_under "recentFiles" k) eqn:Hr; [tauto|].
    destruct (is_under "MapEditor/MapStates" k) eqn:Hm; [tauto|].
    now rewrite !lookup_remove_other.
Qed.

(** The block touches the store only through the two removals, and only
    after a successful save of the session it has just filled. *)
Lemma ctor_migrateManual_settings (st : State) :
  fileName (mSession st) = Session_defaultFileName →
  let st' := ctor_migrateManual st in
  settings st'
  = if Session_save (mSession st')
    then remove "MapEditor/MapStates" (remove "recentFiles" (settings st))
    else settings st.
Proof.
  intros Hdefault. cbv zeta. unfold ctor_migrateManual.
  rewrite Hdefault, String.eqb_refl.
  match goal with
  | |- context [Session_save (mSession ?st2)] => set (migrated := st2)
  end.
  assert (Hsettings : settings migrated = settings st).
  { subst migrated. destruct (contains "recentFiles" (settings st));
      cbn [with_session settings];
      destruct (contains "MapEditor/MapStates" (settings st)); reflexivity. }
  destruct (Session_save (mSession migrated)) eqn:Hsave;
    unfold with_settings, with_saved; cbn [settings mSession];
    now rewrite Hsave, Hsettings.
Qed.

(** C3: in the start-up migration of the recent files and map states (the
    session being the default one), the settings "recentFiles" and
    "MapEditor/MapStates", with their sub-settings, are removed when the
    session save succeeds, and only then: a failed save leaves the whole store
    as it was, so legacy settings that were present stay present and the
    migration runs again at the next start. *)
Theorem ctor_migrateManual_legacy_keys (st : State) :
  fileName (mSession st) = Session_defaultFileName →
  let st' := ctor_migrateManual st in
  let saved := Session_save (mSession st') in
  savedSessions st' = mSession st' :: savedSessions st ∧
  (saved = true →
     legacy_keys_removed (settings st') ∧
     ∀ k, ¬ legacy_key k → settings st' !! k = settings st !! k) ∧
  (saved = false → settings st' = settings st) ∧
  ((∃ k, legacy_key k ∧ is_Some (settings st !! k)) →
     (legacy_keys_removed (settings st') ↔ saved = true)).
Proof.
  intros Hdefault. cbv zeta.
  pose proof (ctor_migrateManual_settings st Hdefault) as Hsettings.
  cbv zeta in Hsettings. split; [|split; [|split]].
  - unfold ctor_migrateManual. rewrite Hdefault, String.eqb_refl.
    match goal with
    | |- context [Session_save (mSession ?st2)] => set (migrated := st2)
    end.
    assert (Hlog : savedSessions migrated = savedSessions st).
    { subst migrated. destruct (contains "recentFiles" (settings st));
        cbn [with_session settings];
        destruct (contains "MapEditor/MapStates" (settings st)); reflexivity. }
    destruct (Session_save (mSession migrated));
      unfold with_settings, with_saved; cbn [savedSessions mSession];
      now rewrite Hlog.
  - intros Hsaved. rewrite Hsaved in Hsettings. rewrite Hsettings. split.
    + intros k Hk. rewrite lookup_remove_legacy.
      now destruct (legacy_key_dec k).
    + intros k Hk. rewrite lookup_remove_legacy.
      now destruct (legacy_key_dec k).
  - intros Hsaved. now rewrite Hsaved in Hsettings.
  - intros (k & Hk & Hsome).
    destruct (Session_save (mSession (ctor_migrateManual st))) eqn:Hsaved.
    + split; [reflexivity|]. intros _. rewrite Hsettings.
      intros k' Hk'. rewrite lookup_remove_legacy.
      now destruct (legacy_key_dec k').
    + rewrite Hsettings. split; [|discriminate].
      intros Hremoved. specialize (Hremoved k Hk).
      rewrite Hremoved in Hsome. now destruct Hsome.
Qed.
End ManualMigration.

(** A store with legacy recent files and map states next to a current
    setting, on a machine that can write the session file and on one that
    cannot. *)
Lemma ctor_migrateManual_witness :
  let st := with_settings
              (λ s, setValue "recentFiles/fileNames" (VStringList ["/m/a.tmx"])
                      (setValue "MapEditor/MapStates"
                         (VMap [("/m/a.tmx", VMap [("scale", VInt 2)])])
                         (setValue "Interface/ShowGrid" (VBool false) s)))
              State_empty in
  let written := ctor_migrateManual (H := sample_platform true None) st in
  let failed := ctor_migrateManual (H := sample_platform false None) st in
  settings written !! "recentFiles/fileNames" = None ∧
  settings written !! "MapEditor/MapStates" = None ∧
  settings written !! "Interface/ShowGrid" = Some (VBool false) ∧
  settings failed = settings st ∧
  ¬ legacy_keys_removed (settings failed).
Proof.
  intros st written failed.
  pose proof (ctor_migrateManual_legacy_keys (H := sample_platform true None)
                st eq_refl) as (_ & Hsaved & _ & _).
  pose proof (ctor_migrateManual_legacy_keys (H := sample_platform false None)
                st eq_refl) as (_ & _ & Hfailed & Hiff).
  destruct (Hsaved eq_refl) as [Hremoved Hkept].
  split; [apply Hremoved; left; reflexivity|].
  split; [apply Hremoved; right; reflexivity|].
  split; [rewrite Hkept; [reflexivity | intros [Hk|Hk]; discriminate]|].
  split; [apply Hfailed; reflexivity|].
  intros Hremoved'. apply Hiff in Hremoved'; [discriminate|].
  exists "MapEditor/MapStates". split; [right; reflexivity|].
  eexists. reflexivity.
Defined.

(** ** Debounced session saving *)

Section Debounce.

Lemma saveSession_pending (st : State) :
  QTimer_isActive (mSaveSessionTimer st) = true → saveSession st = st.
Proof. intros Hactive. unfold saveSession. now rewrite Hactive. Qed.

Lemma step_budget (st : State) (e : Event) :
  timer_ready st →
  timer_ready (step st e) ∧
  (length (savedSessions (step st e)) * 1000 + waited (step st e)
   ≤ length (savedSessions st) * 1000 + waited st + duration e)%nat.
Proof.
  unfold timer_ready, waited. intros [Hint Hrem].
  destruct st as [s sess w saved [int shot rem] ots ps safe log sigs].
  cbn [mSaveSessionTimer interval remaining savedSessions] in *. subst int.
  destruct e as [|ms]; cbn [step duration].
  - unfold saveSession, QTimer_isActive.
    cbn [mSaveSessionTimer remaining].
    destruct rem as [r|]; cbn; [split; [split; [reflexivity|exact Hrem]|lia]|].
    split; [split; [reflexivity|lia]|lia].
  - unfold elapse. cbn [mSaveSessionTimer remaining].
    destruct rem as [r|]; [|cbn; split; [split; [reflexivity|exact I]|lia]].
    destruct (ms <? r)%nat eqn:Hms.
    + apply Nat.ltb_lt in Hms. cbn. split; [split; [reflexivity|lia]|lia].
    + apply Nat.ltb_ge in Hms. destruct shot; cbn; (split; [split; [reflexivity|exact I]|lia]).
Qed.

Lemma run_budget (events : list Event) (st : State) :
  timer_ready st →
  timer_ready (run events st) ∧
  (length (savedSessions (run events st)) * 1000 + waited (run events st)
   ≤ length (savedSessions st) * 1000 + waited st + elapsed events)%nat.
Proof.
  revert st. induction events as [|e events IH]; intros st Hready.
  - simpl. split; [assumption|lia].
  - destruct (step_budget st e Hready) as [Hready' Hstep].
    destruct (IH (step st e) Hready') as [Hready'' Hrun].
    change (run (e :: events) st) with (run events (step st e)).
    split; [assumption|].
    assert (elapsed (e :: events) = (duration e + elapsed events)%nat) as ->
      by (destruct e; reflexivity).
    lia.
Qed.

(** Requests that arrive while a save is pending change nothing but the time
    left on the timer. *)
Lemma run_requests_while_pending (gaps : list nat) (st : State) (r : nat) :
  remaining (mSaveSessionTimer st) = Some r →
  (sum_list gaps < r)%nat →
  let st' := run (flat_map (λ ms, [Elapse ms; RequestSave]) gaps) st in
  remaining (mSaveSessionTimer st') = Some (r - sum_list gaps)%nat ∧
  interval (mSaveSessionTimer st') = interval (mSaveSessionTimer st) ∧
  savedSessions st' = savedSessions st ∧
  mSession st' = mSession st ∧
  emitted st' = emitted st.
Proof.
  revert st r. induction gaps as [|ms gaps IH]; intros st r Hr Hsum; cbv zeta.
  - simpl. rewrite Hr, Nat.sub_0_r. repeat split; reflexivity.
  - simpl in Hsum.
    change (run (flat_map (λ ms, [Elapse ms; RequestSave]) (ms :: gaps)) st)
      with (run (flat_map (λ ms, [Elapse ms; RequestSave]) gaps)
              (saveSession (elapse ms st))).
    assert (Hms : (ms <? r)%nat = true) by (apply Nat.ltb_lt; lia).
    assert (Helapse : elapse ms st
                      = with_timer (λ t, {| interval := interval t;
                                            singleShot := singleShot t;
                                            remaining := Some (r - ms)%nat |}) st).
    { unfold elapse. now rewrite Hr, Hms. }
    rewrite Helapse. rewrite saveSession_pending by reflexivity.
    destruct (IH (with_timer (λ t, {| interval := interval t;
                                      singleShot := singleShot t;
                                      remaining := Some (r - ms)%nat |}) st)
                 (r - ms)%nat eq_refl ltac:(lia))
      as (Hrem & Hint & Hlog & Hsess & Hsig).
    cbv zeta in *. rewrite Hrem, Hint, Hlog, Hsess, Hsig.
    repeat split. f_equal. simpl. lia.
Qed.

(** C4: [saveSession] called while the timer runs starts no timer and changes
    nothing.  So a burst of requests that spans less than a second leads to no
    write while it lasts and to one write, by [saveSessionNow], when the timer
    started by the first request fires a second after it; and whatever the
    requests, [n] writes take at least [n] seconds. *)
Theorem saveSession_debounce (st : State) (gaps : list nat) (events : list Event) :
  remaining (mSaveSessionTimer st) = None →
  interval (mSaveSessionTimer st) = 1000%nat →
  (sum_list gaps < 1000)%nat →
  let burst := RequestSave :: flat_map (λ ms, [Elapse ms; RequestSave]) gaps in
  let fire := Elapse (1000 - sum_list gaps) in
  (∀ pending, QTimer_isActive (mSaveSessionTimer pending) = true →
              saveSession pending = pending) ∧
  (savedSessions (run burst st) = savedSessions st ∧
   remaining (mSaveSessionTimer (run burst st)) = Some (1000 - sum_list gaps)%nat) ∧
  (savedSessions (run (burst ++ [fire]) st) = mSession st :: savedSessions st ∧
   emitted (run (burst ++ [fire]) st) = aboutToSaveSession :: emitted st ∧
   remaining (mSaveSessionTimer (run (burst ++ [fire]) st)) = None) ∧
  ((length (savedSessions (run events st)) - length (savedSessions st)) * 1000
   ≤ elapsed events)%nat.
Proof.
  intros Hidle Hinterval Hsum. cbv zeta.
  split; [exact saveSession_pending|].
  assert (Hfirst : saveSession st = with_timer QTimer_start st).
  { unfold saveSession, QTimer_isActive. now rewrite Hidle. }
  pose proof (run_requests_while_pending gaps (with_timer QTimer_start st) 1000%nat)
    as Hburst.
  cbv zeta in Hburst.
  set (pending := run (flat_map (λ ms, [Elapse ms; RequestSave]) gaps)
                    (with_timer QTimer_start st)) in *.
  destruct Hburst as (Hrem & Hint & Hlog & Hsess & Hsig).
  { unfold with_timer, QTimer_start. cbn [mSaveSessionTimer remaining].
    now rewrite Hinterval. }
  { exact Hsum. }
  assert (Hrun : run (RequestSave :: flat_map (λ ms, [Elapse ms; RequestSave]) gaps) st
                 = pending).
  { subst pending. unfold run. cbn [foldl step]. now rewrite Hfirst. }
  cbn [with_timer savedSessions mSession emitted] in Hlog, Hsess, Hsig.
  split; [|split].
  - rewrite Hrun. split; [exact Hlog | exact Hrem].
  - assert (Hfire : run ((RequestSave :: flat_map (λ ms, [Elapse ms; RequestSave]) gaps)
                           ++ [Elapse (1000 - sum_list gaps)]) st
                    = timeout pending).
    { unfold run at 1. rewrite foldl_app.
      change (foldl step st (RequestSave :: flat_map (λ ms, [Elapse ms; RequestSave]) gaps))
        with (run (RequestSave :: flat_map (λ ms, [Elapse ms; RequestSave]) gaps) st).
      rewrite Hrun. cbn [foldl step]. unfold elapse.
      now rewrite Hrem, Nat.ltb_irrefl. }
    rewrite Hfire. unfold timeout, saveSessionNow, with_saved, with_timer, emit.
    cbn [savedSessions emitted mSaveSessionTimer remaining mSession QTimer_stop].
    rewrite Hlog, Hsess, Hsig. repeat split; reflexivity.
  - destruct (run_budget events st) as [_ Hbudget].
    { unfold timer_ready. now rewrite Hinterval, Hidle. }
    unfold waited in Hbudget at 2. rewrite Hidle in Hbudget. lia.
Qed.
End Debounce.

(** Four requests within 600 ms of a fresh timer, and a longer run with two
    writes in 3100 ms. *)
Lemma saveSession_debounce_witness :
  let st := ctor_saveSessionTimer State_empty in
  let burst := [RequestSave; Elapse 100; RequestSave; Elapse 200; RequestSave;
                Elapse 300; RequestSave] in
  savedSessions (run burst st) = [] ∧
  savedSessions (run (burst ++ [Elapse 400]) st) = [mSession st] ∧
  (length (savedSessions
             (run [RequestSave; Elapse 500; RequestSave; Elapse 600;
                   RequestSave; Elapse 2000] st)) * 1000 ≤ 3100)%nat.
Proof.
  intros st burst.
  pose proof (saveSession_debounce st [100; 200; 300]%nat
                [RequestSave; Elapse 500; RequestSave; Elapse 600;
                 RequestSave; Elapse 2000]
                eq_refl eq_refl ltac:(simpl; lia))
    as (_ & (Hnone & _) & (Hone & _) & Hrate).
  split; [exact Hnone|]. split; [exact Hone|].
  simpl in Hrate. simpl. lia.
Defined.

(** The same call, read through the theorem: the static plugin is in neither
    list, the enabled one and the one just disabled are in theirs. *)
Lemma setPluginEnabled_witness :
  let H := sample_platform true None in
  let st := with_pluginStates
              (λ _, <["libjson.so" := PluginEnabled]>
                      (<["libpython.so" := PluginStatic]> ∅))
              (with_settings
                 (setValue "Plugins/Enabled" (VStringList ["stale.so"]))
                 State_empty) in
  let st' := setPluginEnabled "libtmx.so" false st in
  ∃ enabledPlugins disabledPlugins : list string,
    settings st' !! "Plugins/Enabled" = Some (VStringList enabledPlugins) ∧
    settings st' !! "Plugins/Disabled" = Some (VStringList disabledPlugins) ∧
    ("libjson.so" ∈ enabledPlugins) ∧
    ("libtmx.so" ∈ disabledPlugins) ∧
    ("libpython.so" ∉ enabledPlugins) ∧
    ("libpython.so" ∉ disabledPlugins).
Proof.
  intros H st st'.
  destruct (setPluginEnabled_persisted_lists (H := H) "libtmx.so" false st)
    as (enabledPlugins & disabledPlugins & He & Hd & _ & _ & Hen & Hdis & Hnone & _).
  exists enabledPlugins, disabledPlugins.
  split; [exact He|]. split; [exact Hd|].
  split; [apply Hen; reflexivity|].
  split; [apply Hdis; reflexivity|].
  apply Hnone. right. reflexivity.
Defined.

(** * Further properties of the code *)

(** ** Setters and the getters that read them *)

Section SetterFacts.
Context `{Platform}.

Local Ltac read_back :=
  intros;
  unfold setShowGrid, setGridFine, setObjectLineWidth, setPatron,
    setExportOnSave, setLayerDataFormat, setMapRenderOrder,
    setRestoreSessionOnStartup, setWheelZoomsByDefault, emit, with_settings;
  cbn [settings];
  match goal with
  | |- ?getter (setValue ?key ?v ?s) = ?x =>
      exact (get_setValue_eq key _ x s)
  end.

(** X1: Every setter modelled here that shares its key with a getter is read
    back by that getter: the value just written is the value returned. *)
Theorem setters_read_back (st : State) :
  (∀ b, showGrid (settings (setShowGrid b st)) = b) ∧
  (∀ n, gridFine (settings (setGridFine n st)) = n) ∧
  (∀ w, objectLineWidth (settings (setObjectLineWidth w st)) = w) ∧
  (∀ b, isPatron (settings (setPatron b st)) = b) ∧
  (∀ b, exportOnSave (settings (setExportOnSave b st)) = b) ∧
  (∀ f, layerDataFormat (settings (setLayerDataFormat f st)) = f) ∧
  (∀ o, mapRenderOrder (settings (setMapRenderOrder o st)) = o) ∧
  (∀ b, restoreSessionOnStartup (settings (setRestoreSessionOnStartup b st)) = b) ∧
  (∀ b, wheelZoomsByDefault (settings (setWheelZoomsByDefault b st)) = b).
Proof.
  repeat match goal with |- _ ∧ _ => split end; read_back.
Qed.

(** X2: [lastSession] after [setLastSession]: the name just stored, and the
    default session file when the empty name was stored. *)
Theorem lastSession_setLastSession (fileName : string) (st : State) :
  lastSession (settings (setLastSession fileName st))
  = if QString_isEmpty fileName then Session_defaultFileName else fileName.
Proof.
  unfold lastSession, setLastSession, with_settings. cbn [settings].
  pose proof (get_setValue_eq "Project/LastSession" "" fileName (settings st))
    as Hget.
  cbn [fromValue QString_variant] in Hget. now rewrite Hget.
Qed.

Lemma exportOption_key (option : ExportOption) (s : Settings) :
  exportOption option s
  = get match option with
        | EmbedTilesets => "Export/EmbedTilesets"
        | DetachTemplateInstances => "Export/DetachTemplateInstances"
        | ResolveObjectTypesAndProperties =>
            "Export/ResolveObjectTypesAndProperties"
        | ExportMinimized => "Export/Minimized"
        end false s.
Proof. now destruct option. Qed.

(** X3: [setExportOption] changes the option it is given and no other one. *)
Theorem exportOption_setExportOption (option option' : ExportOption)
    (on : bool) (st : State) :
  exportOption option' (settings (setExportOption option on st))
  = if decide (option = option') then on
    else exportOption option' (settings st).
Proof.
  rewrite !exportOption_key.
  destruct (decide (option = option')) as [<-|Hne].
  - destruct option; unfold setExportOption, with_settings; cbn [settings];
      match goal with
      | |- get ?key _ (setValue ?key _ ?s) = _ =>
          exact (get_setValue_eq key false on s)
      end.
  - destruct option, option'; try congruence;
      unfold setExportOption, with_settings; cbn [settings];
      apply get_setValue_ne; discriminate.
Qed.

(** X4: The flags returned by [exportOptions] are exactly the options for which
    [exportOption] answers true, each once. *)
Theorem exportOptions_exportOption (s : Settings) :
  NoDup (exportOptions s) ∧
  ∀ option, option ∈ exportOptions s ↔ exportOption option s = true.
Proof.
  unfold exportOptions, exportOption.
  destruct (get "Export/EmbedTilesets" false s);
    destruct (get "Export/DetachTemplateInstances" false s);
    destruct (get "Export/ResolveObjectTypesAndProperties" false s);
    destruct (get "Export/Minimized" false s);
    cbn [app];
    (split; [compute_done|]);
    intros [| | |]; split; intros Hin;
    first
      [ reflexivity
      | discriminate Hin
      | compute_done
      | exfalso; revert Hin; compute_done ].
Qed.
End SetterFacts.

(** ** Last-used paths *)

Section LastPath.
Context `{Platform}.

Lemma lastPathKey_inj (fileType fileType' : FileType) :
  lastPathKey fileType = lastPathKey fileType' → fileType = fileType'.
Proof.
  destruct fileType, fileType'; intros Hkey;
    first [reflexivity | cbv in Hkey; discriminate Hkey].
Qed.

(** X5: Distinct file types keep their last path under distinct keys. *)
Theorem lastPathKey_distinct (fileType fileType' : FileType) :
  fileType ≠ fileType' → lastPathKey fileType ≠ lastPathKey fileType'.
Proof. intros Hne Hkey. apply Hne. now apply lastPathKey_inj. Qed.

Lemma QString_isEmpty_false (s : string) : s ≠ "" → QString_isEmpty s = false.
Proof. now destruct s. Qed.

(** X6: [setLastPath] ignores the empty path; a non-empty path is what
    [lastPath] returns afterwards for that file type, and the answer for every
    other file type is as before. *)
Theorem lastPath_setLastPath (fileType : FileType) (path : string) (st : State) :
  (path = "" → setLastPath fileType path st = st) ∧
  (path ≠ "" →
     lastPath fileType (settings (setLastPath fileType path st)) = path ∧
     ∀ fileType', fileType' ≠ fileType →
       lastPath fileType' (settings (setLastPath fileType path st))
       = lastPath fileType' (settings st)).
Proof.
  split.
  - intros ->. reflexivity.
  - intros Hne. unfold setLastPath.
    rewrite (QString_isEmpty_false path Hne).
    unfold with_settings, lastPath, value, setValue. cbn [settings]. split.
    + rewrite lookup_insert_eq. destruct path; [congruence|reflexivity].
    + intros fileType' Hother. rewrite lookup_insert_ne; [reflexivity|].
      intros Hkey. apply lastPathKey_inj in Hkey. congruence.
Qed.

(** X7: With no last path stored for a file type, [lastPath] is the folder of
    the current document, and the documents folder when no document is open
    or its folder is the empty path. *)
Theorem lastPath_fallback (fileType : FileType) (s : Settings) :
  s !! lastPathKey fileType = None →
  lastPath fileType s
  = match currentDocumentPath with
    | Some path => if QString_isEmpty path then documentsLocation else path
    | None => documentsLocation
    end.
Proof. apply lastPath_when_key_absent. Qed.

(** X8: [lastPath] never returns the empty path on a machine that has a
    documents folder. *)
Theorem lastPath_not_empty (fileType : FileType) (s : Settings) :
  documentsLocation ≠ "" → lastPath fileType s ≠ "".
Proof.
  intros Hdocuments. unfold lastPath.
  match goal with
  | |- (if QString_isEmpty ?p then _ else _) ≠ _ =>
      destruct p as [|c p'] eqn:Hpath
  end; [exact Hdocuments | discriminate].
Qed.
End LastPath.

Lemma lastPathKey_distinct_witness :
  ExportedFile ≠ ImageFile ∧ lastPathKey ExportedFile ≠ lastPathKey ImageFile.
Proof.
  assert (Hne : ExportedFile ≠ ImageFile) by discriminate.
  split; [exact Hne | exact (lastPathKey_distinct _ _ Hne)].
Defined.

(** No last path stored and no document open: the documents folder. *)
Lemma lastPath_fallback_witness :
  let H := sample_platform true None in
  lastPath ImageFile ∅ = "/home/user/Documents".
Proof.
  intros H. exact (lastPath_fallback (H := H) ImageFile ∅ eq_refl).
Defined.

(** Saving a map under "/maps" and asking where images were last opened. *)
Lemma lastPath_setLastPath_witness :
  let H := sample_platform true None in
  setLastPath ExportedFile "" State_empty = State_empty ∧
  lastPath ExportedFile (settings (setLastPath ExportedFile "/maps" State_empty))
  = "/maps" ∧
  lastPath ImageFile (settings (setLastPath ExportedFile "/maps" State_empty))
  = "/home/user/Documents".
Proof.
  intros H.
  pose proof (lastPath_setLastPath (H := H) ExportedFile "" State_empty)
    as (Hempty & _).
  pose proof (lastPath_setLastPath (H := H) ExportedFile "/maps" State_empty)
    as (_ & Hset).
  split; [apply Hempty; reflexivity|].
  destruct Hset as [Hsame Hother]; [discriminate|].
  split; [exact Hsame|]. rewrite Hother by discriminate. reflexivity.
Defined.

Lemma lastPath_not_empty_witness :
  let H := sample_platform true None in
  documentsLocation ≠ "" ∧ lastPath WorldFile ∅ ≠ "".
Proof.
  intros H.
  assert (Hdocuments : documentsLocation ≠ "") by discriminate.
  split; [exact Hdocuments|].
  exact (lastPath_not_empty (H := H) WorldFile ∅ Hdocuments).
Defined.

(** ** More on recent projects *)

Section RecentProjectsMore.
Context `{Platform}.

Lemma filter_all (P : string → Prop) `{!∀ x, Decision (P x)} (l : list string) :
  Forall P l → filter P l = l.
Proof.
  induction 1 as [|x l Hx _ IH]; [reflexivity|].
  rewrite filter_cons_True by assumption. now rewrite IH.
Qed.

Lemma Forall_filter_self (P : string → Prop) `{!∀ x, Decision (P x)}
    (l : list string) :
  Forall P (filter P l).
Proof.
  apply Forall_forall. intros x Hx. apply list_elem_of_filter in Hx. tauto.
Qed.

(** X9: [clearRecentProjects] empties the list of recent projects, announces the
    change and leaves every other setting alone. *)
Theorem clearRecentProjects_clears (st : State) :
  let st' := clearRecentProjects st in
  recentProjects (settings st') = [] ∧
  emitted st' = recentProjectsChanged :: emitted st ∧
  ∀ k, is_under "Project/RecentProjects" k = false →
       settings st' !! k = settings st !! k.
Proof.
  cbv zeta. unfold clearRecentProjects, emit, with_settings.
  cbn [settings emitted]. split; [|split; [reflexivity|]].
  - unfold recentProjects. apply get_absent.
    now apply lookup_remove_under.
  - intros k Hk. now apply lookup_remove_other.
Qed.

(** X10: Adding the same project twice in a row gives the list that adding it
    once gives. *)
Theorem addRecentProject_idempotent (fileName : string) (st : State) :
  recentProjects (settings (addRecentProject fileName (addRecentProject fileName st)))
  = recentProjects (settings (addRecentProject fileName st)).
Proof.
  rewrite !recentProjects_addRecentProject.
  destruct (decide (absoluteCleanPath fileName = "")) as [Hempty|Hpath].
  - now rewrite !addToRecentFileList_empty.
  - rewrite !addToRecentFileList_nonempty by assumption.
    destruct MaxRecentFiles as [|n]; [reflexivity|].
    rewrite !firstn_cons. f_equal.
    rewrite filter_cons_False by (intros Hne; now apply Hne).
    rewrite filter_all by (apply Forall_take, Forall_filter_self).
    rewrite take_take. f_equal. lia.
Qed.

(** X11: [addRecentProject] keeps a duplicate-free list duplicate-free and adds
    nothing but the project it was given. *)
Theorem addRecentProject_NoDup (fileName : string) (st : State) :
  let files := recentProjects (settings st) in
  let files' := recentProjects (settings (addRecentProject fileName st)) in
  (NoDup files → NoDup files') ∧
  (∀ f, f ∈ files' → f = absoluteCleanPath fileName ∨ f ∈ files).
Proof.
  cbv zeta. rewrite recentProjects_addRecentProject.
  destruct (decide (absoluteCleanPath fileName = "")) as [Hempty|Hpath].
  - rewrite addToRecentFileList_empty by assumption. split; [tauto|]. now right.
  - rewrite addToRecentFileList_nonempty by assumption. split.
    + intros Hfiles. eapply sublist_NoDup; [|apply sublist_take].
      apply NoDup_cons. split.
      * intros Hin. apply list_elem_of_filter in Hin. tauto.
      * now apply NoDup_filter.
    + intros f Hin. apply elem_of_take in Hin as (i & Hf & _).
      apply list_elem_of_lookup_2 in Hf.
      apply elem_of_cons in Hf as [->|Hf]; [now left|].
      right. apply list_elem_of_filter in Hf. tauto.
Qed.

(** X12: While there is room nothing is dropped: a new project is put in front of
    the unchanged list, and adding the project that is already first leaves a
    duplicate-free list as it is. *)
Theorem addRecentProject_room (fileName : string) (st : State) :
  let path := absoluteCleanPath fileName in
  let files := recentProjects (settings st) in
  let files' := recentProjects (settings (addRecentProject fileName st)) in
  path ≠ "" →
  (path ∉ files → (length files < MaxRecentFiles)%nat → files' = path :: files) ∧
  (head files = Some path → NoDup files → (length files ≤ MaxRecentFiles)%nat →
   files' = files).
Proof.
  cbv zeta. intros Hpath. rewrite recentProjects_addRecentProject.
  rewrite addToRecentFileList_nonempty by assumption. split.
  - intros Hnew Hlen. rewrite filter_all.
    + apply take_ge. simpl. lia.
    + apply Forall_forall. intros f Hf Heq. subst f. contradiction.
  - intros Hhead Hfiles Hlen.
    destruct (recentProjects (settings st)) as [|f rest] eqn:Hrest;
      [discriminate|].
    injection Hhead as ->. apply NoDup_cons in Hfiles as [Hnotin Hfiles].
    rewrite filter_cons_False by (intros Hne; now apply Hne).
    rewrite filter_all.
    + apply take_ge. simpl in *. lia.
    + apply Forall_forall. intros f Hf Heq. subst f. contradiction.
Qed.
End RecentProjectsMore.

(** Clearing a list of one project next to another setting. *)
Lemma clearRecentProjects_witness :
  let st := with_settings
              (λ s, setValue "Project/RecentProjects"
                      (VStringList ["/p/a.tiled-project"])
                      (setValue "Project/LastSession" (VString "/p/a.session") s))
              State_empty in
  let st' := clearRecentProjects st in
  recentProjects (settings st') = [] ∧
  settings st' !! "Project/LastSession" = Some (VString "/p/a.session").
Proof.
  intros st st'.
  pose proof (clearRecentProjects_clears st) as (Hcleared & _ & Hkept).
  split; [exact Hcleared|].
  unfold st'. rewrite Hkept by reflexivity. reflexivity.
Defined.

(** Three projects on a machine that keeps three: re-adding the second one,
    and asking where the entries of the new list come from. *)
Lemma addRecentProject_NoDup_witness :
  let H := sample_platform true None in
  let files := ["/p/a.tiled-project"; "/p/b.tiled-project"; "/p/c.tiled-project"] in
  let st := with_settings
              (setValue "Project/RecentProjects" (VStringList files))
              State_empty in
  let files' := recentProjects (settings (addRecentProject "/p/b.tiled-project" st)) in
  NoDup files' ∧
  ("/p/a.tiled-project" = "/p/b.tiled-project" ∨ "/p/a.tiled-project" ∈ files).
Proof.
  intros H files st files'.
  pose proof (addRecentProject_NoDup (H := H) "/p/b.tiled-project" st)
    as [Hnodup Hfrom].
  split; [apply Hnodup; compute_done|].
  apply Hfrom. compute_done.
Defined.

(** One project on a machine that keeps three. *)
Lemma addRecentProject_room_witness :
  let H := sample_platform true None in
  let st := with_settings
              (setValue "Project/RecentProjects"
                 (VStringList ["/p/a.tiled-project"]))
              State_empty in
  recentProjects (settings (addRecentProject "/p/b.tiled-project" st))
  = ["/p/b.tiled-project"; "/p/a.tiled-project"] ∧
  recentProjects (settings (addRecentProject "/p/a.tiled-project" st))
  = ["/p/a.tiled-project"].
Proof.
  intros H st.
  pose proof (addRecentProject_room (H := H) "/p/b.tiled-project" st
                ltac:(discriminate)) as [Hnew _].
  pose proof (addRecentProject_room (H := H) "/p/a.tiled-project" st
                ltac:(discriminate)) as [_ Hfirst].
  split.
  - apply Hnew; [compute_done | vm_compute; lia].
  - apply Hfirst; [reflexivity | compute_done | vm_compute; lia].
Defined.

(** ** The donation reminder *)

Section DonationReminder.
Context `{Platform}.

Lemma get_remove_other {T} `{VariantType T} (key key' : string) (d : T)
    (s : Settings) :
  is_under key' key = false → get key d (remove key' s) = get key d s.
Proof.
  intros Hother. unfold get, value. now rewrite lookup_remove_other.
Qed.

(** X13: After [setDonationDialogReminder(date)], for a date whose ISO text reads
    back as the date: the stored reminder is [date], a valid date clears the
    patron flag, and the dialog is due exactly when the date is valid, not
    after today, and the run count has reached 7. *)
Theorem shouldShowDonationDialog_after_reminder (date : QDate) (st : State) :
  QDate_fromString (QDate_toString date) = date →
  let s' := settings (setDonationDialogReminder date st) in
  donationDialogTime s' = date ∧
  (QDate_isValid date = true → isPatron s' = false) ∧
  (QDate_isValid date = false → isPatron s' = isPatron (settings st)) ∧
  (shouldShowDonationDialog s' = true ↔
   ∃ d, date = Some d ∧ d ≤ currentDate ∧ 7 ≤ runCount (settings st)).
Proof.
  intros Hiso. cbv zeta.
  assert (Hdate : donationDialogTime
                    (settings (setDonationDialogReminder date st)) = date).
  { unfold donationDialogTime, setDonationDialogReminder, with_settings.
    cbn [settings]. unfold get, value, setValue.
    rewrite lookup_insert_eq. exact Hiso. }
  assert (Hpatron : isPatron (settings (setDonationDialogReminder date st))
                    = if QDate_isValid date then false
                      else isPatron (settings st)).
  { unfold isPatron, setDonationDialogReminder, with_settings.
    cbn [settings]. rewrite get_setValue_ne by discriminate.
    destruct (QDate_isValid date); [|reflexivity].
    unfold setPatron, emit, with_settings. cbn [settings].
    exact (get_setValue_eq "Install/IsPatron" false false (settings st)). }
  assert (Hruns : runCount (settings (setDonationDialogReminder date st))
                  = runCount (settings st)).
  { unfold runCount, setDonationDialogReminder, with_settings.
    cbn [settings]. rewrite get_setValue_ne by discriminate.
    destruct (QDate_isValid date); [|reflexivity].
    unfold setPatron, emit, with_settings. cbn [settings].
    now rewrite get_setValue_ne by discriminate. }
  split; [exact Hdate|].
  split; [intros Hvalid; now rewrite Hpatron, Hvalid|].
  split; [intros Hvalid; now rewrite Hpatron, Hvalid|].
  unfold shouldShowDonationDialog. rewrite Hdate, Hpatron, Hruns.
  destruct date as [d|]; cbn [QDate_isValid negb daysTo].
  - destruct (runCount (settings st) <? 7) eqn:Hlt.
    + apply Z.ltb_lt in Hlt. split; [discriminate|].
      intros (d' & _ & _ & Hge). lia.
    + apply Z.ltb_ge in Hlt. rewrite Z.leb_le. split.
      * intros Hdue. exists d. split; [reflexivity|]. split; [lia|exact Hlt].
      * intros (d' & Hd' & Hle & _). injection Hd' as ->. lia.
  - split.
    + destruct (isPatron (settings st)); [discriminate|].
      destruct (runCount (settings st) <? 7); discriminate.
    + intros (d & Hd & _). discriminate.
Qed.
End DonationReminder.

(** A reminder for 2020-01-01, seen on 2020-01-11 by a patron on the ninth
    run. *)
Lemma shouldShowDonationDialog_after_reminder_witness :
  let H := dated_platform in
  let st := with_settings
              (λ s, setValue "Install/RunCount" (VInt 9)
                      (setValue "Install/IsPatron" (VBool true) s))
              State_empty in
  let s' := settings (setDonationDialogReminder (Some 2458850) st) in
  QDate_fromString (QDate_toString (Some 2458850)) = Some 2458850 ∧
  donationDialogTime s' = Some 2458850 ∧
  isPatron s' = false ∧
  shouldShowDonationDialog s' = true.
Proof.
  intros H st s'.
  assert (Hiso : QDate_fromString (QDate_toString (Some 2458850)) = Some 2458850)
    by reflexivity.
  split; [exact Hiso|].
  pose proof (shouldShowDonationDialog_after_reminder (H := H)
                (Some 2458850) st Hiso) as (Hdate & Hvalid & _ & Hdue).
  split; [exact Hdate|]. split; [apply Hvalid; reflexivity|].
  apply Hdue. exists 2458850. split; [reflexivity|].
  split; vm_compute; discriminate.
Defined.

(** ** Start-up: usage information *)

Section UsageInfoFacts.
Context `{Platform}.
Variable QDate_addMonths : QDate → Z → QDate.

Lemma int_wrap_small (z : Z) : - 2 ^ 31 ≤ z < 2 ^ 31 → int_wrap z = z.
Proof. intros Hz. unfold int_wrap. rewrite Z.mod_small; lia. Qed.

Lemma get_int_setValue (key : string) (d x : Z) (s : Settings) :
  get key d (setValue key (VInt x) s) = x.
Proof. exact (get_setValue_eq key d x s). Qed.

Lemma contains_false (key : string) (s : Settings) :
  contains key s = false ↔ s !! key = None.
Proof.
  unfold contains. rewrite bool_decide_eq_false.
  rewrite <- eq_None_not_Some. tauto.
Qed.

Lemma contains_true (key : string) (s : Settings) :
  contains key s = true ↔ is_Some (s !! key).
Proof. unfold contains. apply bool_decide_eq_true. Qed.

(** Case analysis on the three tests of [ctor_usageInfo], in program order. *)
Local Ltac usage_cases st :=
  unfold ctor_usageInfo;
  destruct (contains "Install/PatreonDialogTime" (settings st)) eqn:Hpatreon;
  cbn [with_settings settings];
  match goal with
  | |- context [negb (QDate_isValid (firstRun ?s))] =>
      destruct (negb (QDate_isValid (firstRun s))) eqn:Hfirst
  end;
  cbn [with_settings settings];
  match goal with
  | |- context [negb (contains "Install/DonationDialogTime" ?s)] =>
      destruct (negb (contains "Install/DonationDialogTime" s)) eqn:Hdonation
  end;
  cbn [with_settings settings].

(** X14: Each start counts: the run counter read after the constructor is one more
    than before, as long as the sum fits a C++ [int]. *)
Theorem ctor_usageInfo_runCount (st : State) :
  - 2 ^ 31 ≤ runCount (settings st) < 2 ^ 31 - 1 →
  runCount (settings (ctor_usageInfo QDate_addMonths st))
  = runCount (settings st) + 1.
Proof.
  intros Hrange. usage_cases st;
    unfold runCount in *;
    rewrite get_int_setValue;
    rewrite ?get_setValue_ne by discriminate;
    rewrite ?get_remove_other by reflexivity;
    rewrite ?get_setValue_ne by discriminate;
    apply int_wrap_small; lia.
Qed.

Local Ltac store_lookup :=
  unfold setValue;
  repeat first
    [ rewrite lookup_insert_eq
    | rewrite lookup_insert_ne by discriminate
    | rewrite lookup_remove_other by reflexivity
    | rewrite lookup_remove_under by reflexivity ].

(** X15: The old "Install/PatreonDialogTime" setting does not survive start-up,
    and when it was there its value is what "Install/DonationDialogTime"
    holds afterwards. *)
Theorem ctor_usageInfo_patreon (st : State) :
  let s' := settings (ctor_usageInfo QDate_addMonths st) in
  s' !! "Install/PatreonDialogTime" = None ∧
  ∀ v, settings st !! "Install/PatreonDialogTime" = Some v →
       s' !! "Install/DonationDialogTime" = Some v.
Proof.
  cbv zeta. split.
  - usage_cases st; store_lookup;
      first [reflexivity | now apply contains_false].
  - intros v Hv. usage_cases st;
      try (apply contains_false in Hpatreon; congruence);
      try (apply negb_true_iff, contains_false in Hdonation;
           revert Hdonation; store_lookup; discriminate);
      store_lookup; unfold value; now rewrite Hv.
Qed.

Lemma shouldShowDonationDialog_not_due (s : Settings) (d : Z) :
  donationDialogTime s = Some d → currentDate < d →
  shouldShowDonationDialog s = false.
Proof.
  intros Hd Hlater. unfold shouldShowDonationDialog. rewrite Hd.
  destruct (isPatron s); [reflexivity|].
  destruct (runCount s <? 7); [reflexivity|].
  cbn [QDate_isValid negb daysTo]. apply Z.leb_gt. lia.
Qed.

Lemma reminder_choice (candidate : QDate) :
  (if 0 <=? daysTo candidate (Some currentDate)
   then addDays (Some currentDate) 2 else candidate)
  = match candidate with
    | Some c => if currentDate <? c then Some c else Some (currentDate + 2)
    | None => Some (currentDate + 2)
    end.
Proof.
  destruct candidate as [c|]; [|reflexivity]. cbn [daysTo addDays].
  destruct (Z.leb_spec 0 (currentDate - c)), (Z.ltb_spec currentDate c);
    first [reflexivity | lia].
Qed.

Lemma reminder_later (candidate : QDate) :
  ∃ d, match candidate with
       | Some c => if currentDate <? c then Some c else Some (currentDate + 2)
       | None => Some (currentDate + 2)
       end = Some d ∧ currentDate < d.
Proof.
  destruct candidate as [c|].
  - destruct (Z.ltb_spec currentDate c).
    + exists c. now split.
    + exists (currentDate + 2). split; [reflexivity|lia].
  - exists (currentDate + 2). split; [reflexivity|lia].
Qed.

Lemma firstRun_setValue (text : string) (s : Settings) :
  firstRun (setValue "Install/FirstRun" (VString text) s)
  = QDate_fromString text.
Proof.
  unfold firstRun, get, value, setValue. now rewrite lookup_insert_eq.
Qed.

(** X16: On a store that holds no reminder yet, the constructor stores the
    ISO text of this date: one month after the first run (the stored first
    run when it is valid, else today's date as just written) when that day
    is strictly after today, and today plus two days otherwise.  Either way
    the date is strictly after today, so when its text reads back as the date
    the dialog is not due on that run. *)
Theorem ctor_usageInfo_first_reminder (st : State) :
  settings st !! "Install/PatreonDialogTime" = None →
  settings st !! "Install/DonationDialogTime" = None →
  let s' := settings (ctor_usageInfo QDate_addMonths st) in
  let first : QDate :=
    if QDate_isValid (firstRun (settings st)) then firstRun (settings st)
    else QDate_fromString (QDate_toString (Some currentDate)) in
  let reminder : QDate :=
    match QDate_addMonths first 1 with
    | Some c => if currentDate <? c then Some c else Some (currentDate + 2)
    | None => Some (currentDate + 2)
    end in
  s' !! "Install/DonationDialogTime" = Some (VString (QDate_toString reminder)) ∧
  (∃ d, reminder = Some d ∧ currentDate < d) ∧
  (QDate_fromString (QDate_toString reminder) = reminder →
   shouldShowDonationDialog s' = false).
Proof.
  intros Hpatreon0 Hdonation0. cbv zeta. usage_cases st;
    try (apply contains_true in Hpatreon; rewrite Hpatreon0 in Hpatreon;
         now destruct Hpatreon);
    try (apply negb_false_iff, contains_true in Hdonation;
         revert Hdonation; store_lookup; rewrite Hdonation0;
         intros [? ?]; discriminate);
    match type of Hfirst with
    | negb _ = true => apply (proj1 (negb_true_iff _)) in Hfirst
    | negb _ = false => apply (proj1 (negb_false_iff _)) in Hfirst
    end;
    rewrite Hfirst, ?firstRun_setValue, reminder_choice;
    match goal with
    | |- context [QDate_toString ?r] =>
        match r with
        | match ?candidate with _ => _ end =>
            destruct (reminder_later candidate) as (d & Hreminder & Hlater)
        end
    end;
    (split; [store_lookup; reflexivity|]);
    (split; [exists d; split; [exact Hreminder | exact Hlater]|]);
    intros Hiso;
    (apply (shouldShowDonationDialog_not_due _ d); [|exact Hlater]);
    unfold donationDialogTime; rewrite get_setValue_ne by discriminate;
    unfold get, value; store_lookup; (etrans; [|exact Hreminder]); (etrans; [|exact Hiso]); reflexivity.
Qed.
End UsageInfoFacts.

(** The tenth start of an installation. *)
Lemma ctor_usageInfo_runCount_witness :
  let H := dated_platform in
  let st := with_settings (setValue "Install/RunCount" (VInt 9)) State_empty in
  - 2 ^ 31 ≤ runCount (settings st) < 2 ^ 31 - 1 ∧
  runCount (settings (ctor_usageInfo sample_addMonths st)) = 10.
Proof.
  intros H st.
  assert (Hnine : runCount (settings st) = 9) by (vm_compute; reflexivity).
  assert (Hrange : - 2 ^ 31 ≤ runCount (settings st) < 2 ^ 31 - 1)
    by (rewrite Hnine; lia).
  split; [exact Hrange|].
  rewrite (ctor_usageInfo_runCount (H := H) sample_addMonths st Hrange).
  rewrite Hnine. reflexivity.
Defined.

(** A start of an installation that still carries the old Patreon
    reminder. *)
Lemma ctor_usageInfo_patreon_witness :
  let H := dated_platform in
  let st := with_settings
              (λ s, setValue "Install/RunCount" (VInt 9)
                      (setValue "Install/PatreonDialogTime" (VString "2020-02-01")
                         (setValue "Install/FirstRun" (VString "2020-01-01") s)))
              State_empty in
  let s' := settings (ctor_usageInfo sample_addMonths st) in
  s' !! "Install/PatreonDialogTime" = None ∧
  s' !! "Install/DonationDialogTime" = Some (VString "2020-02-01").
Proof.
  intros H st s'.
  pose proof (ctor_usageInfo_patreon (H := H) sample_addMonths st)
    as [Hgone Hmoved].
  split; [exact Hgone|]. apply Hmoved. vm_compute. reflexivity.
Defined.

(** The very first start, on 2020-01-11: the reminder is set for
    2020-02-11 and the dialog is not due. *)
Lemma ctor_usageInfo_first_reminder_witness :
  let H := dated_platform in
  let s' := settings (ctor_usageInfo sample_addMonths State_empty) in
  s' !! "Install/DonationDialogTime" = Some (VString "2020-02-11") ∧
  shouldShowDonationDialog s' = false.
Proof.
  intros H s'.
  pose proof (ctor_usageInfo_first_reminder (H := H) sample_addMonths
                State_empty eq_refl eq_refl) as (Hstored & _ & Hnotdue).
  split; [exact Hstored|]. apply Hnotdue. reflexivity.
Defined.

(** ** More on debounced saving *)

Section DebounceMore.

Lemma step_savedSessions_mono (st : State) (e : Event) :
  (length (savedSessions st) ≤ length (savedSessions (step st e)))%nat.
Proof.
  destruct e as [|ms]; cbn [step].
  - unfold saveSession. destruct (negb _); cbn; lia.
  - unfold elapse. destruct (remaining (mSaveSessionTimer st)) as [r|]; [|lia].
    destruct (ms <? r)%nat; cbn; lia.
Qed.

Lemma run_savedSessions_mono (events : list Event) (st : State) :
  (length (savedSessions st) ≤ length (savedSessions (run events st)))%nat.
Proof.
  revert st. induction events as [|e events IH]; intros st; [simpl; lia|].
  change (run (e :: events) st) with (run events (step st e)).
  pose proof (step_savedSessions_mono st e). pose proof (IH (step st e)). lia.
Qed.

Lemma timeout_savedSessions (st : State) :
  savedSessions (timeout st) = mSession st :: savedSessions st.
Proof. reflexivity. Qed.

Lemma run_pending_fires (events : list Event) (st : State) (r : nat) :
  remaining (mSaveSessionTimer st) = Some r →
  (r ≤ elapsed events)%nat → (0 < elapsed events)%nat →
  (length (savedSessions st) < length (savedSessions (run events st)))%nat.
Proof.
  revert st r. induction events as [|e events IH]; intros st r Hr Hdue Hpos.
  - simpl in Hpos. lia.
  - change (run (e :: events) st) with (run events (step st e)).
    destruct e as [|ms]; cbn [step].
    + rewrite saveSession_pending
        by (unfold QTimer_isActive; rewrite Hr; reflexivity).
      apply (IH st r Hr); simpl in *; lia.
    + unfold elapse. rewrite Hr. destruct (ms <? r)%nat eqn:Hms.
      * apply Nat.ltb_lt in Hms.
        match goal with
        | |- context [run events ?st1] =>
            pose proof (IH st1 (r - ms)%nat eq_refl) as Hrest
        end.
        cbn [with_timer savedSessions] in Hrest.
        apply Hrest; simpl in *; lia.
      * match goal with
        | |- context [run events ?st1] =>
            pose proof (run_savedSessions_mono events st1) as Hrest
        end.
        rewrite timeout_savedSessions in Hrest. simpl in Hrest. lia.
Qed.

(** X17: No save request is lost: once [saveSession] has been called, a second of
    elapsed time brings at least one session write, whatever else is
    requested meanwhile. *)
Theorem saveSession_not_lost (st : State) (events : list Event) :
  timer_ready st →
  (1000 ≤ elapsed events)%nat →
  (length (savedSessions st)
   < length (savedSessions (run (RequestSave :: events) st)))%nat.
Proof.
  intros [Hinterval Hremaining] Hdue.
  change (run (RequestSave :: events) st) with (run events (saveSession st)).
  unfold saveSession, QTimer_isActive.
  destruct (remaining (mSaveSessionTimer st)) as [r|] eqn:Hr; cbn [negb].
  - rewrite bool_decide_eq_true_2 by eauto. cbn [negb].
    apply (run_pending_fires events st r Hr); lia.
  - rewrite bool_decide_eq_false_2 by (intros [? ?]; discriminate). cbn [negb].
    pose proof (run_pending_fires events (with_timer QTimer_start st) 1000%nat)
      as Hfires.
    cbn [with_timer savedSessions mSaveSessionTimer QTimer_start remaining]
      in Hfires.
    apply Hfires; [now rewrite Hinterval | lia | lia].
Qed.

(** X18: [saveSessionNow] announces the save with [aboutToSaveSession],
    writes the session once and leaves the timer stopped: however much time
    passes afterwards, the state stays as it is, so no further write follows
    until a new request. *)
Theorem saveSessionNow_cancels_pending (st : State) (waits : list nat) :
  let st' := saveSessionNow st in
  savedSessions st' = mSession st :: savedSessions st ∧
  emitted st' = aboutToSaveSession :: emitted st ∧
  QTimer_isActive (mSaveSessionTimer st') = false ∧
  run (Elapse <$> waits) st' = st'.
Proof.
  assert (Hidle : ∀ st0, remaining (mSaveSessionTimer st0) = None →
                         run (Elapse <$> waits) st0 = st0).
  { induction waits as [|ms waits IH]; intros st0 Hst0; [reflexivity|].
    change (run (Elapse <$> ms :: waits) st0)
      with (run (Elapse <$> waits) (elapse ms st0)).
    unfold elapse. rewrite Hst0. now apply IH. }
  cbv zeta. split; [reflexivity|]. split; [reflexivity|].
  split; [reflexivity|]. apply Hidle. reflexivity.
Qed.
End DebounceMore.

(** A request made 400 ms before the timer of an earlier one fires. *)
Lemma saveSession_not_lost_witness :
  let st := run [RequestSave; Elapse 600] (ctor_saveSessionTimer State_empty) in
  timer_ready st ∧
  (length (savedSessions st)
   < length (savedSessions
               (run [RequestSave; Elapse 300; RequestSave; Elapse 700] st)))%nat.
Proof.
  intros st.
  assert (Hready : timer_ready st) by (split; [reflexivity | simpl; lia]).
  split; [exact Hready|].
  apply (saveSession_not_lost st [Elapse 300; RequestSave; Elapse 700] Hready).
  simpl. lia.
Defined.

(** ** More on the object-types file *)

Section ObjectTypesFileMore.
Context `{Platform}.

Lemma get_QString_setValue (key d x : string) (s : Settings) :
  get key d (setValue key (VString x) s) = x.
Proof. exact (get_setValue_eq key d x s). Qed.

Lemma objectTypesFile_nonempty (s : Settings) : objectTypesFile s ≠ "".
Proof.
  unfold objectTypesFile.
  destruct (get "Storage/ObjectTypesFile" "" s) as [|c file]; [|discriminate].
  cbn [QString_isEmpty]. destruct dataLocation; discriminate.
Qed.


Lemma objectTypesFile_after_set (fileName : string) (st : State) :
  objectTypesFile (settings (setObjectTypesFile fileName st))
  = if QString_isEmpty fileName then dataLocation +:+ "/objecttypes.xml"
    else fileName.
Proof.
  unfold setObjectTypesFile.
  destruct (String.eqb_spec (objectTypesFile (settings st)) fileName) as [Heq|Hne].
  - rewrite Heq. pose proof (objectTypesFile_nonempty (settings st)) as Hprev.
    rewrite Heq in Hprev. now rewrite (QString_isEmpty_false fileName Hprev).
  - destruct (negb (QString_isEmpty (objectTypesFile (settings st))));
      unfold with_watcher, with_settings; cbn [settings];
      unfold objectTypesFile at 1;
      now rewrite get_QString_setValue.
Qed.

(** X20: After [setObjectTypesFile(fileName)], [objectTypesFile()] is [fileName],
    and the file in the data location when [fileName] is empty. *)
Theorem objectTypesFile_setObjectTypesFile (fileName : string) (st : State) :
  objectTypesFile (settings (setObjectTypesFile fileName st))
  = if QString_isEmpty fileName then dataLocation +:+ "/objecttypes.xml"
    else fileName.
Proof. apply objectTypesFile_after_set. Qed.

(** X21: Changing to a non-empty file name keeps the watcher on the current
    object-types file: if [objectTypesFile()] was watched before the call,
    it is watched after it, and the previous file no longer is. *)
Theorem setObjectTypesFile_watched (fileName : string) (st : State) :
  fileName ≠ "" →
  objectTypesFile (settings st) ∈ mWatcher st →
  let st' := setObjectTypesFile fileName st in
  objectTypesFile (settings st') ∈ mWatcher st' ∧
  (fileName ≠ objectTypesFile (settings st) →
   objectTypesFile (settings st) ∉ mWatcher st').
Proof.
  intros Hname Hwatched. cbv zeta.
  rewrite objectTypesFile_after_set.
  rewrite (QString_isEmpty_false fileName Hname).
  unfold setObjectTypesFile.
  destruct (String.eqb_spec (objectTypesFile (settings st)) fileName) as [Heq|Hne].
  - split; [now rewrite <- Heq | congruence].
  - rewrite (QString_isEmpty_false _ (objectTypesFile_nonempty (settings st))).
    cbn [negb with_watcher with_settings mWatcher].
    unfold addPath, removePath. split.
    + apply elem_of_union_l, elem_of_singleton. reflexivity.
    + intros _ Hin. apply elem_of_union in Hin as [Hin|Hin].
      * apply elem_of_singleton in Hin. congruence.
      * apply elem_of_difference in Hin as [_ Hin].
        apply Hin, elem_of_singleton. reflexivity.
Qed.

(** X22: When the object-types file is read at start-up, the object types are
    the ones read, the legacy "ObjectTypes" settings are gone while every
    other setting stays, and the file is watched. *)
Theorem ctor_objectTypes_read (st : State) (read : ObjectTypes) :
  readObjectTypes (objectTypesFile (settings st)) [] = (true, read) →
  let st' := ctor_objectTypes st in
  objectTypes st' = read ∧
  (∀ k, is_under "ObjectTypes" k = true → settings st' !! k = None) ∧
  (∀ k, is_under "ObjectTypes" k = false →
        settings st' !! k = settings st !! k) ∧
  objectTypesFile (settings st') = objectTypesFile (settings st) ∧
  objectTypesFile (settings st') ∈ mWatcher st'.
Proof.
  intros Hread. cbv zeta. unfold ctor_objectTypes. rewrite Hread.
  cbn [negb with_objectTypes with_watcher with_settings settings objectTypes
       mWatcher].
  assert (Hfile : objectTypesFile (remove "ObjectTypes" (settings st))
                  = objectTypesFile (settings st)).
  { unfold objectTypesFile. now rewrite get_remove_other by reflexivity. }
  split; [reflexivity|].
  split; [intros k Hk; now apply lookup_remove_under|].
  split; [intros k Hk; now apply lookup_remove_other|].
  split; [exact Hfile|].
  unfold addPath. set_solver.
Qed.
End ObjectTypesFileMore.

(** Moving the watched default file to "/tmp/types.xml". *)
Lemma setObjectTypesFile_watched_witness :
  let H := sample_platform true None in
  let st := with_watcher
              (addPath "/home/user/.local/share/tiled/objecttypes.xml")
              State_empty in
  let st' := setObjectTypesFile "/tmp/types.xml" st in
  ("/tmp/types.xml" ∈ mWatcher st') ∧
  ("/home/user/.local/share/tiled/objecttypes.xml" ∉ mWatcher st').
Proof.
  intros H st st'.
  pose proof (setObjectTypesFile_watched (H := H) "/tmp/types.xml" st
                ltac:(discriminate)) as Hwatch.
  destruct Hwatch as [Hnew Hold].
  - unfold st, with_watcher, addPath. cbn [mWatcher settings]. set_solver.
  - split; [exact Hnew|]. apply Hold. discriminate.
Defined.

(** A first start with a readable object-types file and legacy settings. *)
Lemma ctor_objectTypes_read_witness :
  let red := {| ot_name := "enemy"; ot_color := Rgba 255 0 0 255 |} in
  let H := sample_platform true (Some [red]) in
  let st := with_settings
              (λ s, setValue "ObjectTypes/Names" (VStringList ["door"])
                      (setValue "Interface/ShowGrid" (VBool false) s))
              State_empty in
  let st' := ctor_objectTypes st in
  objectTypes st' = [red] ∧
  settings st' !! "ObjectTypes/Names" = None ∧
  settings st' !! "Interface/ShowGrid" = Some (VBool false).
Proof.
  intros red H st st'.
  pose proof (ctor_objectTypes_read (H := H) st [red] eq_refl)
    as (Htypes & Hgone & Hkept & _).
  split; [exact Htypes|].
  split; [apply Hgone; reflexivity|].
  unfold st'. rewrite Hkept by reflexivity. reflexivity.
Defined.

(** ** Plugins across a restart *)

Section PluginsMore.
Context `{Platform}.

Local Abbreviation in_state state entries :=
  ((filter (λ entry : string * PluginState, entry.2 = state) entries).*1).

Lemma pluginStates_foldl
    (g : string → gmap string PluginState → gmap string PluginState)
    (l : list string) (st : State) :
  pluginStates (foldl (λ st f, with_pluginStates (g f) st) st l)
  = foldl (λ states f, g f states) (pluginStates st) l.
Proof.
  revert st. induction l as [|f l IH]; intros st; [reflexivity|].
  cbn [foldl]. now rewrite IH.
Qed.

Lemma setPluginEnabled_stored (fileName : string) (enabled : bool) (st : State) :
  let st' := setPluginEnabled fileName enabled st in
  pluginStates st'
  = PluginManager_setPluginState fileName
      (if enabled then PluginEnabled else PluginDisabled) (pluginStates st) ∧
  get "Plugins/Enabled" [] (settings st')
  = in_state PluginEnabled (QMap_entries (pluginStates st')) ∧
  get "Plugins/Disabled" [] (settings st')
  = in_state PluginDisabled (QMap_entries (pluginStates st')).
Proof.
  cbv zeta. unfold setPluginEnabled. rewrite setPluginEnabled_loop.
  cbn [app]. unfold with_settings, with_pluginStates.
  cbn [settings pluginStates]. split; [reflexivity|]. split.
  - apply get_QStringList_setValue.
  - rewrite get_setValue_ne by discriminate. apply get_QStringList_setValue.
Qed.

Section Inserting.
(* PluginManager::setPluginState records every state but PluginDefault *)
Hypothesis setPluginState_records :
  ∀ f state states, state ≠ PluginDefault →
    PluginManager_setPluginState f state states = <[f := state]> states.

Lemma foldl_setPluginState_lookup (state : PluginState) (l : list string)
    (states : gmap string PluginState) (k : string) :
  state ≠ PluginDefault →
  foldl (λ states f, PluginManager_setPluginState f state states) states l !! k
  = if decide (k ∈ l) then Some state else states !! k.
Proof.
  intros Hstate. revert states.
  induction l as [|f l IH]; intros states; cbn [foldl].
  - rewrite decide_False by apply not_elem_of_nil. reflexivity.
  - rewrite IH, setPluginState_records by assumption.
    destruct (decide (k ∈ l)) as [Hin|Hnotin].
    + rewrite decide_True by now right. reflexivity.
    + destruct (decide (k = f)) as [->|Hne].
      * rewrite decide_True by now left. apply lookup_insert_eq.
      * rewrite decide_False
          by (intros Hin; apply elem_of_cons in Hin as [?|?]; tauto).
        now apply lookup_insert_ne.
Qed.

(** X23: What [setPluginEnabled] stores is what the constructor needs: read into
    an empty plugin manager at the next start, the two lists give back every
    plugin that was enabled or disabled, in that state, and no other
    plugin. *)
Theorem ctor_plugins_restores (fileName : string) (enabled : bool) (st : State) :
  let st' := setPluginEnabled fileName enabled st in
  let restarted := ctor_plugins (with_pluginStates (λ _, ∅) st') in
  ∀ f, pluginStates restarted !! f
       = match pluginStates st' !! f with
         | Some PluginEnabled => Some PluginEnabled
         | Some PluginDisabled => Some PluginDisabled
         | _ => None
         end.
Proof.
  cbv zeta. intros f.
  destruct (setPluginEnabled_stored fileName enabled st) as (_ & Hen & Hdis).
  cbv zeta in Hen, Hdis. unfold ctor_plugins.
  cbn [with_pluginStates settings]. rewrite Hen, Hdis.
  rewrite !pluginStates_foldl. cbn [pluginStates].
  rewrite !foldl_setPluginState_lookup by discriminate.
  change (pluginStates (with_pluginStates (λ _, ∅)
                          (setPluginEnabled fileName enabled st)))
    with (∅ : gmap string PluginState).
  rewrite lookup_empty.
  repeat case_decide;
    repeat match goal with
           | Hin : _ ∈ _ |- _ => apply in_state_elem_of in Hin
           | Hin : ¬ (_ ∈ _) |- _ => rewrite in_state_elem_of in Hin
           end;
    try match goal with
        | Hin : _ !! f = Some _ |- _ => now rewrite Hin
        end.
  destruct (pluginStates (setPluginEnabled fileName enabled st) !! f)
    as [[]|]; congruence.
Qed.
End Inserting.
End PluginsMore.

(** Restarting after "libtmx.so" was disabled next to an enabled and a static
    plugin. *)
Lemma ctor_plugins_restores_witness :
  let H := sample_platform true None in
  let st := with_pluginStates
              (λ _, <["libjson.so" := PluginEnabled]>
                      (<["libpython.so" := PluginStatic]> ∅))
              State_empty in
  let st' := setPluginEnabled "libtmx.so" false st in
  let restarted := ctor_plugins (with_pluginStates (λ _, ∅) st') in
  pluginStates restarted !! "libjson.so" = Some PluginEnabled ∧
  pluginStates restarted !! "libtmx.so" = Some PluginDisabled ∧
  pluginStates restarted !! "libpython.so" = None.
Proof.
  intros H st st' restarted.
  assert (Hrecords : ∀ f state states, state ≠ PluginDefault →
            PluginManager_setPluginState f state states = <[f := state]> states)
    by (intros f [] states Hstate; [congruence | reflexivity..]).
  pose proof (ctor_plugins_restores (H := H) Hrecords "libtmx.so" false st)
    as Hrestored.
  cbv zeta in Hrestored. unfold restarted, st'.
  rewrite !Hrestored. repeat split; vm_compute; reflexivity.
Defined.

(** ** Start-up: the map states *)

Section MapStates.
Context `{Platform}.

Lemma QVariantMap_value_insert (key : string) (v : QVariant) (m : QVariantMap)
    (k : string) :
  QVariantMap_value k (QVariantMap_insert key v m)
  = if String.eqb key k then v else QVariantMap_value k m.
Proof.
  induction m as [|[k0 w] m IH]; [reflexivity|].
  cbn [QVariantMap_insert]. destruct (String.compare key k0) eqn:Hcompare.
  - apply String.compare_eq_iff in Hcompare as ->. cbn [QVariantMap_value].
    now destruct (String.eqb k0 k).
  - reflexivity.
  - cbn [QVariantMap_value]. rewrite IH.
    destruct (String.eqb_spec k0 k) as [->|Hk0]; [|reflexivity].
    destruct (String.eqb_spec key k) as [->|Hkey]; [|reflexivity].
    pose proof (String.compare_antisym k k) as Hanti.
    rewrite Hcompare in Hanti. discriminate Hanti.
Qed.

Lemma ctor_migrateMapState_other (sess : Session) (entries : QVariantMap)
    (file : string) :
  file ∉ entries.*1 →
  fileStates (foldl ctor_migrateMapState sess entries) !! file
  = fileStates sess !! file.
Proof.
  revert sess. induction entries as [|[file0 v0] entries IH]; intros sess Hfile;
    [reflexivity|].
  cbn [foldl]. rewrite IH.
  - unfold ctor_migrateMapState, Session_setFileState. cbn [fileStates fst].
    apply lookup_insert_ne. intros ->. apply Hfile. now left.
  - intros Hin. apply Hfile. now right.
Qed.

Lemma ctor_migrateMapState_entry (sess : Session) (entries : QVariantMap)
    (file : string) (v : QVariant) :
  NoDup entries.*1 → (file, v) ∈ entries →
  fileStates (foldl ctor_migrateMapState sess entries) !! file
  = Some (QVariantMap_insert "viewCenter"
            (toSettingsValue_toPointF (QVariantMap_value "viewCenter" (toMap v)))
            (toMap v)).
Proof.
  revert sess. induction entries as [|[file0 v0] entries IH];
    intros sess Hnodup Hin; [now apply elem_of_nil in Hin|].
  cbn [fmap list_fmap fst] in Hnodup. apply NoDup_cons in Hnodup as [Hfresh Hnodup].
  cbn [foldl]. apply elem_of_cons in Hin as [Hhead|Hin].
  - injection Hhead as -> ->. rewrite ctor_migrateMapState_other by assumption.
    unfold ctor_migrateMapState, Session_setFileState. cbn [fileStates fst snd].
    apply lookup_insert_eq.
  - now apply IH.
Qed.

(** X24: The manual migration carries every legacy map state into the session:
    each file of "MapEditor/MapStates" gets a file state in which
    "viewCenter" is the converted view centre and every other entry is the
    legacy one; files without a legacy state keep the state they had. *)
Theorem ctor_migrateManual_mapStates (st : State) (entries : QVariantMap) :
  fileName (mSession st) = Session_defaultFileName →
  settings st !! "MapEditor/MapStates" = Some (VMap entries) →
  NoDup entries.*1 →
  let sess' := mSession (ctor_migrateManual st) in
  (∀ file v, (file, v) ∈ entries →
     ∃ fileState,
       fileStates sess' !! file = Some fileState ∧
       QVariantMap_value "viewCenter" fileState
       = toSettingsValue_toPointF (QVariantMap_value "viewCenter" (toMap v)) ∧
       ∀ k, k ≠ "viewCenter" →
            QVariantMap_value k fileState = QVariantMap_value k (toMap v)) ∧
  (∀ file, file ∉ entries.*1 →
     fileStates sess' !! file = fileStates (mSession st) !! file).
Proof.
  intros Hdefault Hstates Hnodup. cbv zeta.
  assert (Hsession :
    ∃ sess, fileStates sess = fileStates (mSession st) ∧
            mSession (ctor_migrateManual st)
            = foldl ctor_migrateMapState sess entries).
  { unfold ctor_migrateManual. rewrite Hdefault, String.eqb_refl.
    assert (Hcontains : contains "MapEditor/MapStates" (settings st) = true)
      by (unfold contains; rewrite Hstates; apply bool_decide_eq_true_2; eauto).
    assert (Hget : get "MapEditor/MapStates" [] (settings st) = entries)
      by (unfold get, value; now rewrite Hstates).
    destruct (contains "recentFiles" (settings st));
      cbn [with_session settings]; rewrite Hcontains;
      cbn [with_session settings mSession]; rewrite Hget;
      match goal with
      | |- context [if Session_save ?s then _ else _] =>
          destruct (Session_save s)
      end;
      cbn [with_settings with_saved mSession];
      eexists; (split; [|reflexivity]); reflexivity. }
  destruct Hsession as (sess & Hsess & ->). split.
  - intros file v Hin.
    exists (QVariantMap_insert "viewCenter"
              (toSettingsValue_toPointF (QVariantMap_value "viewCenter" (toMap v)))
              (toMap v)).
    split; [apply ctor_migrateMapState_entry; assumption|].
    split.
    + rewrite QVariantMap_value_insert. reflexivity.
    + intros k Hk. rewrite QVariantMap_value_insert.
      destruct (String.eqb_spec "viewCenter" k); [congruence|reflexivity].
  - intros file Hfile. rewrite ctor_migrateMapState_other by assumption.
    now rewrite Hsess.
Qed.
End MapStates.

(** Two legacy map states, one of a file the session already knows. *)
Lemma ctor_migrateManual_mapStates_witness :
  let H := sample_platform true None in
  let entries : QVariantMap :=
    [ ("/m/a.tmx", VMap [("scale", VInt 2); ("viewCenter", VString "10,20")]);
      ("/m/b.tmx", VMap [("scale", VInt 1)]) ] in
  let st := with_session
              (Session_setFileState "/m/c.tmx" [("scale", VInt 4)])
              (with_settings (setValue "MapEditor/MapStates" (VMap entries))
                 State_empty) in
  let sess' := mSession (ctor_migrateManual st) in
  (∃ fileState,
     fileStates sess' !! "/m/a.tmx" = Some fileState ∧
     QVariantMap_value "scale" fileState = VInt 2) ∧
  fileStates sess' !! "/m/c.tmx" = Some [("scale", VInt 4)].
Proof.
  intros H entries st sess'.
  pose proof (ctor_migrateManual_mapStates (H := H) st entries eq_refl eq_refl
                ltac:(compute_done)) as [Hmigrated Hkept].
  split.
  - destruct (Hmigrated "/m/a.tmx" _ ltac:(left))
      as (fileState & Hstate & _ & Hother).
    exists fileState. split; [exact Hstate|].
    rewrite Hother by discriminate. reflexivity.
  - unfold sess'. rewrite Hkept by compute_done. reflexivity.
Defined.
